(** * The checkpoint scripts [flow.py], [old_flow/flow.py], [new_flow/flow.py]

    A shallow embedding of the three variants of the checkpoint script and of
    the marker protocol of [old_flow/gui_helper.py], with the properties of
    the classifier, the editor bridge, the logger and the session loop.

    Modelling scope.  A Python [str] is a [string] of 7-bit ASCII characters;
    the emoji of the fixed messages are kept as the bytes of their UTF-8
    encoding and are never inspected.  [lower], [strip] and the regular
    expression [\b] follow Python on the codes 0..127 and leave every other
    byte alone (not white space, not a word character, no case).  The [json]
    module, the file system, the terminal and the editor process are outside
    the repository: they are modelled by what the scripts can observe of
    them.  A file is opened or refused as a whole (no write fails half way),
    the terminal takes every character printed, and the interrupt key is
    met at an [input] call only.  Of the editor window, the text widget is
    the text before and the text after its cursor; the layout of the
    window and its event loop are left out. *)

From Stdlib Require Import ZArith NArith Bool List Ascii String Lia.
From stdpp Require Import base option list gmap strings.

Set Warnings "-register-all".
Local Open Scope Z_scope.

(* ===================================================================== *)
(** * Python [str] primitives                                             *)
(* ===================================================================== *)

Module Py.

Definition code (c : ascii) : N := N_of_ascii c.

(** [str.isspace] on one ASCII character: TAB LF VT FF CR, the four
    separators FS GS RS US, and SPACE. *)
Definition isspace (c : ascii) : bool :=
  let n := code c in
  (((9 <=? n) && (n <=? 13)) || ((28 <=? n) && (n <=? 32)))%N.

Definition isupper (c : ascii) : bool :=
  let n := code c in ((65 <=? n) && (n <=? 90))%N.

Definition isdigit (c : ascii) : bool :=
  let n := code c in ((48 <=? n) && (n <=? 57))%N.

Definition isalpha (c : ascii) : bool :=
  let n := code c in
  (((65 <=? n) && (n <=? 90)) || ((97 <=? n) && (n <=? 122)))%N.

Definition lower_char (c : ascii) : ascii :=
  if isupper c then ascii_of_N (code c + 32) else c.

(** [s.lower()] *)
Fixpoint lower (s : string) : string :=
  match s with
  | EmptyString => EmptyString
  | String c r => String (lower_char c) (lower r)
  end.

(** [s.lstrip()] *)
Fixpoint lstrip (s : string) : string :=
  match s with
  | EmptyString => EmptyString
  | String c r => if isspace c then lstrip r else s
  end.

(** [s.rstrip()] *)
Fixpoint rstrip (s : string) : string :=
  match s with
  | EmptyString => EmptyString
  | String c r =>
      match rstrip r with
      | EmptyString => if isspace c then EmptyString else String c EmptyString
      | r' => String c r'
      end
  end.

(** [s.strip()] *)
Definition strip (s : string) : string := rstrip (lstrip s).

(** [len(s)] *)
Definition len (s : string) : Z := Z.of_nat (String.length s).

(** [s.startswith(p)] *)
Fixpoint startswith (p s : string) : bool :=
  match p, s with
  | EmptyString, _ => true
  | String a p', String b s' => if Ascii.eqb a b then startswith p' s' else false
  | String _ _, EmptyString => false
  end.

(** [sub in s] *)
Fixpoint contains (sub s : string) : bool :=
  startswith sub s ||
  match s with
  | EmptyString => false
  | String _ r => contains sub r
  end.

(** [s.find(sub)]: the lowest index of an occurrence, or -1. *)
Fixpoint find (sub s : string) : Z :=
  if startswith sub s then 0
  else match s with
       | EmptyString => -1
       | String _ r => let i := find sub r in if i <? 0 then -1 else i + 1
       end.

(** The index arithmetic of a slice bound: a negative bound counts from
    the end, and every bound is clamped to [0 .. len]. *)
Definition clamp (n i : Z) : Z :=
  if i <? 0 then Z.max 0 (i + n) else Z.min i n.

(** [s[a:b]] *)
Definition slice (s : string) (a b : Z) : string :=
  let n := len s in
  let a' := clamp n a in
  let b' := clamp n b in
  String.substring (Z.to_nat a') (Z.to_nat (b' - a')) s.

(** Truth value of a string: [if s:] *)
Definition truthy (s : string) : bool :=
  match s with EmptyString => false | String _ _ => true end.

(** [x in [a, b, ...]] for strings *)
Definition mem (x : string) (l : list string) : bool :=
  existsb (String.eqb x) l.

(** [c * n] for a one-character string, as in ["=" * 50] *)
Fixpoint rep (c : ascii) (n : nat) : string :=
  match n with
  | O => EmptyString
  | S k => String c (rep c k)
  end.

End Py.

(* ===================================================================== *)
(** * The regular expression [\b kw \b] of [old_flow/flow.py]             *)
(* ===================================================================== *)

Module Re.

(** [\w] on one ASCII character *)
Definition isword (c : ascii) : bool :=
  Py.isalpha c || Py.isdigit c || Ascii.eqb c "_"%char.

(** The character on one side of a position; outside the string there is
    none, which counts as a non-word character. *)
Definition wordy (o : option ascii) : bool :=
  match o with Some c => isword c | None => false end.

(** [\b]: exactly one of the two neighbours is a word character. *)
Definition boundary (prev next : option ascii) : bool :=
  xorb (wordy prev) (wordy next).

Definition first (s : string) : option ascii :=
  match s with EmptyString => None | String c _ => Some c end.

Fixpoint final (prev : option ascii) (s : string) : option ascii :=
  match s with EmptyString => prev | String c r => final (Some c) r end.

Fixpoint drop (n : nat) (s : string) : string :=
  match n, s with
  | O, _ => s
  | S k, String _ r => drop k r
  | S _, EmptyString => EmptyString
  end.

(** Does [\b kw \b] match at the current position?  [prev] is the
    character just before it. *)
Definition match_here (kw : string) (prev : option ascii) (s : string) : bool :=
  boundary prev (first s)
  && Py.startswith kw s
  && boundary (final prev kw) (first (drop (String.length kw) s)).

(** [re.search(r'\b' + re.escape(kw) + r'\b', s)] as a truth value: try
    every position from left to right. *)
Fixpoint search_from (kw : string) (prev : option ascii) (s : string) : bool :=
  match_here kw prev s ||
  match s with
  | EmptyString => false
  | String c r => search_from kw (Some c) r
  end.

Definition search_word (kw s : string) : bool := search_from kw None s.

End Re.

(* ===================================================================== *)
(** * Intents and the three classifiers                                   *)
(* ===================================================================== *)

(** The first component of the pair [process_input] returns:
    ['finish'], ['help'] or ['continue']. *)
Inductive action : Type := Finish | Help | Continue.

Definition action_str (a : action) : string :=
  match a with Finish => "finish" | Help => "help" | Continue => "continue" end.

Module Flow.

Definition finish_keywords : list string :=
  ["done"; "finish"; "end"; "complete"; "stop"; "exit"; "quit"].

(** [src/flow.py], [process_input] *)
Definition process_input (user_input : string) : action * string :=
  let input_lower := Py.strip (Py.lower user_input) in
  if existsb (fun keyword => Py.contains keyword input_lower) finish_keywords
  then (Finish, user_input)
  else if Py.contains "help" input_lower then (Help, user_input)
  else (Continue, user_input).

End Flow.

Module OldFlow.

Definition finish_keywords : list string := ["done"; "finish"].

Definition gui_keywords : list string := ["gui"; "edit"; "editor"].

(** [src/old_flow/flow.py], [process_input]: the [for] loop over the
    keywords returns at the first one that matches. *)
Definition process_input (user_input : string) : action * string :=
  let input_lower := Py.strip (Py.lower user_input) in
  if existsb (fun keyword => Re.search_word keyword input_lower) finish_keywords
  then (Finish, user_input)
  else if Py.contains "help" input_lower then (Help, user_input)
  else if Py.mem input_lower gui_keywords then (Continue, user_input)
  else (Continue, user_input).

End OldFlow.

Module NewFlow.

(** [src/new_flow/flow.py], [process_input]: there is no finish rule. *)
Definition process_input (user_input : string) : action * string :=
  let input_lower := Py.strip (Py.lower user_input) in
  if Py.contains "help" input_lower then (Help, user_input)
  else (Continue, user_input).

End NewFlow.

(* ===================================================================== *)
(** * The log file: JSON values, the disk, exceptions                     *)
(* ===================================================================== *)

(** What [json.load] returns.  A float keeps the text of its literal. *)
Inductive json : Type :=
  | JNull
  | JBool (b : bool)
  | JInt (n : Z)
  | JFloat (literal : string)
  | JStr (s : string)
  | JArr (items : list json)
  | JObj (fields : list (string * json)).

(** The text of a file, classified by what [json.load] does with it: text
    it rejects (kept as it is, with the message of the error raised), or
    text it accepts, identified with the value it denotes.  [json.dump]
    writes text of the second kind. *)
Inductive content : Type :=
  | Unparsable (raw : string) (err : string)
  | Parsable (v : json).

(** The exceptions the logger meets, each with the text [str(e)] gives. *)
Inductive exn : Type :=
  | OSError (msg : string)
  | JSONDecodeError (msg : string)
  | AttributeError (msg : string).

Definition exn_str (e : exn) : string :=
  match e with
  | OSError m | JSONDecodeError m | AttributeError m => m
  end.

(** [JSONDecodeError] is a subclass of [ValueError]; of the exceptions
    above it is the only one [except (json.JSONDecodeError, ValueError)]
    catches. *)
Definition is_value_error (e : exn) : bool :=
  match e with JSONDecodeError _ => true | _ => false end.

Inductive res (A : Type) : Type :=
  | Ok (a : A)
  | Raise (e : exn).
Arguments Ok {A} a.
Arguments Raise {A} e.

Definition bind {A B : Type} (r : res A) (k : A -> res B) : res B :=
  match r with Ok a => k a | Raise e => Raise e end.

Notation "'try' x <- r 'in' k" := (bind r (fun x => k))
  (at level 10, x name, r at level 100, k at level 200).

(** The disk: the files that exist, and the paths [open] refuses for
    reading and for writing. *)
Record fs : Type := mkFs {
  files : gmap string content;
  no_read : gset string;
  no_write : gset string
}.

Definition dq : string := String "034"%char EmptyString.
Definition nl : string := String "010"%char EmptyString.

Definition denied (path : string) : exn :=
  OSError ("[Errno 13] Permission denied: '" +:+ path +:+ "'").

(** [os.path.exists(path)] *)
Definition path_exists (d : fs) (path : string) : bool :=
  bool_decide (is_Some (files d !! path)).

(** [with open(path, 'r') as f: f.read()] *)
Definition read_file (d : fs) (path : string) : res content :=
  if bool_decide (path ∈ no_read d) then Raise (denied path)
  else match files d !! path with
       | Some c => Ok c
       | None => Raise (OSError ("[Errno 2] No such file or directory: '" +:+ path +:+ "'"))
       end.

(** [json.load] and [json.loads] on the text read *)
Definition json_load (c : content) : res json :=
  match c with
  | Unparsable _ err => Raise (JSONDecodeError err)
  | Parsable v => Ok v
  end.

Definition type_name (v : json) : string :=
  match v with
  | JNull => "NoneType" | JBool _ => "bool" | JInt _ => "int"
  | JFloat _ => "float" | JStr _ => "str" | JArr _ => "list" | JObj _ => "dict"
  end.

(** [logs.append(log_entry)]: only a list has [append]. *)
Definition append (logs entry : json) : res json :=
  match logs with
  | JArr items => Ok (JArr (items ++ [entry]))
  | v => Raise (AttributeError ("'" +:+ type_name v +:+ "' object has no attribute 'append'"))
  end.

(** [with open(path, 'w') as f: json.dump(v, f, indent=2)] *)
Definition write_json (d : fs) (path : string) (v : json) : res fs :=
  if bool_decide (path ∈ no_write d) then Raise (denied path)
  else Ok (mkFs (<[path := Parsable v]> (files d)) (no_read d) (no_write d)).

(** What a reader of the log gets back: the array, when the file holds one. *)
Definition read_log (d : fs) (path : string) : option (list json) :=
  match files d !! path with
  | Some (Parsable (JArr items)) => Some items
  | _ => None
  end.

(** What the scripts write to the terminal: [print(s)] and the prompt of
    [input(prompt)]. *)
Inductive output : Type :=
  | Print (s : string)
  | Ask (prompt : string).

(** The dictionary [log_entry]; [stamp] is [datetime.now().isoformat()]. *)
Definition log_entry (stamp : string) (a : action) (user_input : string) : json :=
  JObj [("timestamp", JStr stamp); ("action", JStr (action_str a));
        ("user_input", JStr user_input)].

(** [save_session_log] of [src/flow.py] and of [src/old_flow/flow.py]
    (the two are the same text).  [log_file] is the path the script
    computes from its own location. *)
Definition save_session_log_plain (log_file stamp : string)
    (a : action) (user_input : string) (d : fs) : list output * fs :=
  let entry := log_entry stamp a user_input in
  let body : res fs :=
    try logs <- (if path_exists d log_file
                 then try c <- read_file d log_file in json_load c
                 else Ok (JArr [])) in
    try logs' <- append logs entry in
    write_json d log_file logs' in
  match body with
  | Ok d' => ([], d')
  | Raise e => ([Print ("⚠️  Could not save log: " +:+ exn_str e)], d)
  end.

(** The inner [try] of [src/new_flow/flow.py]: read the text, strip it,
    parse it unless it is blank; a [JSONDecodeError] or [ValueError] gives
    the empty list and a warning.  Any other exception leaves the inner
    [try]. *)
Definition load_or_reset (d : fs) (log_file : string) : list output * res json :=
  let parsed : res json :=
    try c <- read_file d log_file in
    match c with
    | Unparsable raw err =>
        if Py.truthy (Py.strip raw) then Raise (JSONDecodeError err)
        else Ok (JArr [])
    | Parsable v => Ok v
    end in
  match parsed with
  | Ok logs => ([], Ok logs)
  | Raise e =>
      if is_value_error e
      then ([Print "⚠️ JSON log file was corrupted, starting fresh"], Ok (JArr []))
      else ([], Raise e)
  end.

(** [save_session_log] of [src/new_flow/flow.py] *)
Definition save_session_log_backup (log_file stamp : string)
    (a : action) (user_input : string) (d : fs) : list output * fs :=
  let entry := log_entry stamp a user_input in
  let '(shown, loaded) :=
    if path_exists d log_file then load_or_reset d log_file
    else ([], Ok (JArr [])) in
  let body : res fs :=
    try logs <- loaded in
    try logs' <- append logs entry in
    write_json d log_file logs' in
  match body with
  | Ok d' => (shown, d')
  | Raise e =>
      let warned := shown ++ [Print ("⚠️ Could not save log: " +:+ exn_str e)] in
      let backup_file := log_file +:+ ".backup" in
      match write_json d backup_file (JArr [entry]) with
      | Ok d' => (warned ++ [Print ("📝 Log saved to backup: " +:+ backup_file)], d')
      | Raise _ => (warned, d)
      end
  end.

(* ===================================================================== *)
(** * The terminal, the editor process and the marker protocol            *)
(* ===================================================================== *)

(** What one call of [input()] meets: a line, end of input ([EOFError]) or
    the interrupt key ([KeyboardInterrupt]).  When the list of events is
    used up the input has ended. *)
Inductive tty : Type :=
  | Line (s : string)
  | Eof
  | Interrupt.

(** How [subprocess.run] ends: with a [CompletedProcess], with
    [subprocess.TimeoutExpired], or with another exception (the launch
    failed).  The two exceptions carry the text of [str(e)]. *)
Inductive run : Type :=
  | Completed (returncode : Z) (stdout stderr : string)
  | TimeoutExpired (msg : string)
  | LaunchError (msg : string).

(** [get_user_input] returns a string, or leaves through [sys.exit]. *)
Inductive got : Type :=
  | Returned (s : string)
  | Exited (code : Z).

(** Where [get_user_input] waits for the terminal: at its own prompt, or
    at the choice offered after the editor delivered [content]. *)
Inductive mode : Type :=
  | Prompting
  | Choosing (content : string).

Record reply : Type := mkReply {
  shown : list output;
  result : got;
  unread : list tty;
  launches : nat
}.

Definition say (o : list output) (r : reply) : reply :=
  mkReply (o ++ shown r) (result r) (unread r) (launches r).

Definition GUI_RESULT_START : string := "GUI_RESULT_START".
Definition GUI_RESULT_END : string := "GUI_RESULT_END".
Definition GUI_RESULT_CANCELLED : string := "GUI_RESULT_CANCELLED".

Module GuiHelper.

(** [src/old_flow/gui_helper.py], [StandaloneGUI.submit]: what the three
    [print] calls write for a non-empty [content]. *)
Definition submit (content : string) : string :=
  GUI_RESULT_START +:+ nl +:+ content +:+ nl +:+ GUI_RESULT_END +:+ nl.

(** [StandaloneGUI.cancel] *)
Definition cancel : string := GUI_RESULT_CANCELLED +:+ nl.

End GuiHelper.

(** What differs between the three scripts:
    - [title], [subtitle]: the second and fifth line of the banner;
    - [menu]: the lines [get_user_input] prints before its loop;
    - [prompt]: the prompt of its [input];
    - [warn]: the warning sign with the blanks after it, two in [flow.py]
      and [old_flow/flow.py], one in [new_flow/flow.py];
    - [gui]: whether "gui", "edit" and "editor" open the editor;
    - [timed]: whether [subprocess.run] has a timeout and
      [TimeoutExpired] a handler of its own (without one the exception
      would reach the handler of [Exception]);
    - [on_stop]: what the handlers of [KeyboardInterrupt] and [EOFError]
      do, [return "finish"] or [sys.exit(0)];
    - [classify], [help_text], [respond], [save]: [process_input], the
      lines of [show_help], [generate_response] and [save_session_log]
      (given the path of the log and the time stamp). *)
Record variant : Type := mkVariant {
  title : string;
  subtitle : string;
  menu : list string;
  prompt : string;
  warn : string;
  gui : bool;
  timed : bool;
  on_stop : got;
  classify : string -> action * string;
  help_text : list string;
  respond : action -> string -> string;
  save : string -> string -> action -> string -> fs -> list output * fs
}.

Definition sep50 : string := Py.rep "="%char 50.
Definition sep60 : string := Py.rep "="%char 60.
Definition dash50 : string := Py.rep "-"%char 50.
Definition choice_prompt : string := "👤 Your choice: ".
Definition header : string := "📤 RESPONSE FOR GITHUB COPILOT:".

(** How a run of [main] ends: after the response ([Done]), through
    [sys.exit], or, in the model only, with the fuel of the loop used up. *)
Inductive ending : Type :=
  | Done
  | SysExit (code : Z)
  | OutOfFuel.

Record finished : Type := mkFinished {
  printed : list output;
  disk : fs;
  how : ending;
  left_over : list tty
}.

Definition before (o : list output) (f : finished) : finished :=
  mkFinished (o ++ printed f) (disk f) (how f) (left_over f).

Section Session.

Variable V : variant.

(** [print_banner]; [hms] is [datetime.now().strftime('%H:%M:%S')]. *)
Definition print_banner (hms : string) : list output :=
  [Print (nl +:+ sep50); Print (title V); Print sep50;
   Print ("⏰ Time: " +:+ hms); Print (subtitle V); Print dash50].

(** One turn of the editor loop of [get_user_input], from the result of
    [subprocess.run] up to the [input] of the choice: what is printed and
    where the script waits next. *)
Definition gui_round (r : run) : list output * mode :=
  match r with
  | Completed returncode stdout stderr =>
      if returncode =? 0 then
        let output := Py.strip stdout in
        if Py.contains GUI_RESULT_CANCELLED output then
          ([Print "❌ GUI cancelled by user"], Prompting)
        else if Py.contains GUI_RESULT_START output
                && Py.contains GUI_RESULT_END output then
          let start_idx := Py.find GUI_RESULT_START output + Py.len GUI_RESULT_START in
          let end_idx := Py.find GUI_RESULT_END output in
          let content := Py.strip (Py.slice output start_idx end_idx) in
          if Py.truthy content then
            ([Print (nl +:+ "✅ Instructions received from GUI:");
              Print sep60; Print content; Print sep60;
              Print "📋 Press Enter to execute these instructions";
              Print "    or type 'edit' and press Enter to modify them..."],
             Choosing content)
          else ([Print (warn V +:+ "No content received from GUI")], Prompting)
        else ([Print (warn V +:+ "Unexpected GUI output")], Prompting)
      else ([Print (warn V +:+ "GUI process failed: " +:+ stderr)], Prompting)
  | TimeoutExpired msg =>
      if timed V then ([Print (warn V +:+ "GUI timed out")], Prompting)
      else ([Print (warn V +:+ "Error running GUI: " +:+ msg)], Prompting)
  | LaunchError msg =>
      ([Print (warn V +:+ "Error running GUI: " +:+ msg)], Prompting)
  end.

Definition stop (o : list output) (stdin : list tty) (n : nat) : reply :=
  mkReply o (on_stop V) stdin n.

Definition interrupted : output :=
  Print (nl +:+ nl +:+ warn V +:+ "Session interrupted by user").
Definition ended : output :=
  Print (nl +:+ nl +:+ warn V +:+ "Input stream ended").
Definition choice_eof : output :=
  Print (warn V +:+ "Error running GUI: EOF when reading a line").
Definition opening : output := Print "🔄 Opening GUI editor...".

(** The two nested [while True] loops of [get_user_input], driven by the
    terminal events.  The script waits for the terminal at two places
    only, the [input] of the outer loop ([Prompting]) and the [input] of
    the choice in the editor loop ([Choosing], with [current_content]);
    each clause below is the code that runs from one of these calls to the
    next one, or to the [return] or [sys.exit]:
    - at the prompt, a line is stripped; an empty one prints the warning
      and [continue]s; one of the editor words (when the script has the
      editor) starts the editor loop with the empty content; any other is
      returned;
    - at the choice, "edit" runs the editor again on the content, anything
      else returns the content;
    - [KeyboardInterrupt] reaches the outer handler from both places;
      [EOFError] does so from the prompt, but at the choice it is caught by
      the [except Exception] of the editor loop, which prints it and
      [break]s to the prompt.
    [editor n content] is how the [n]-th launch of [gui_helper.py] ends
    when it is given [content] as its argument. *)
Fixpoint converse (editor : nat -> string -> run) (m : mode)
    (stdin : list tty) (n : nat) : reply :=
  match stdin with
  | [] =>
      match m with
      | Prompting => stop [Ask (prompt V); ended] [] n
      | Choosing _ =>
          stop [Ask choice_prompt; choice_eof; Ask (prompt V); ended] [] n
      end
  | ev :: rest =>
      match m with
      | Prompting =>
          match ev with
          | Line l =>
              let user_input := Py.strip l in
              if negb (Py.truthy user_input) then
                say [Ask (prompt V);
                     Print (warn V +:+ "Please enter an instruction...")]
                    (converse editor Prompting rest n)
              else if gui V && Py.mem (Py.lower user_input) ["gui"; "edit"; "editor"] then
                let '(o, m') := gui_round (editor n "") in
                say (Ask (prompt V) :: opening :: o)
                    (converse editor m' rest (S n))
              else mkReply [Ask (prompt V)] (Returned user_input) rest n
          | Interrupt => stop [Ask (prompt V); interrupted] rest n
          | Eof => stop [Ask (prompt V); ended] rest n
          end
      | Choosing content =>
          match ev with
          | Line l =>
              let choice := Py.lower (Py.strip l) in
              if String.eqb choice "edit" then
                let '(o, m') := gui_round (editor n content) in
                say (Ask choice_prompt
                       :: Print "🔄 Reopening GUI editor with current content..."
                       :: opening :: o)
                    (converse editor m' rest (S n))
              else mkReply [Ask choice_prompt] (Returned content) rest n
          | Interrupt => stop [Ask choice_prompt; interrupted] rest n
          | Eof =>
              say [Ask choice_prompt; choice_eof]
                  (converse editor Prompting rest n)
          end
      end
  end.

(** [get_user_input] *)
Definition get_user_input (editor : nat -> string -> run)
    (stdin : list tty) (n : nat) : reply :=
  say (map Print (menu V)) (converse editor Prompting stdin n).

(** [show_help] *)
Definition show_help : list output := map Print (help_text V).

(** The five [print] calls of [main] around the response. *)
Definition response_block (response : string) : list output :=
  [Print (nl +:+ sep50); Print header; Print sep50; Print response; Print sep50].

(** The [while True] of [main]; one unit of fuel per turn. *)
Fixpoint main_loop (fuel : nat) (log_file stamp : string)
    (editor : nat -> string -> run) (stdin : list tty) (n : nat) (d : fs)
    : finished :=
  match fuel with
  | O => mkFinished [] d OutOfFuel stdin
  | S fuel' =>
      let r := get_user_input editor stdin n in
      match result r with
      | Exited c => mkFinished (shown r) d (SysExit c) (unread r)
      | Returned user_input =>
          let '(a, processed_input) := classify V user_input in
          match a with
          | Help =>
              before (shown r ++ show_help)
                (main_loop fuel' log_file stamp editor (unread r) (launches r) d)
          | _ =>
              let '(logged, d') := save V log_file stamp a processed_input d in
              let response := respond V a processed_input in
              mkFinished (shown r ++ logged ++ response_block response)
                         d' Done (unread r)
          end
      end
  end.

(** [main]: the banner, then the loop.  Every turn of the loop takes at
    least one terminal event, so one more turn than there are events is
    enough. *)
Definition main (log_file hms stamp : string)
    (editor : nat -> string -> run) (stdin : list tty) (d : fs) : finished :=
  before (print_banner hms)
    (main_loop (S (length stdin)) log_file stamp editor stdin 0%nat d).

End Session.

(* ===================================================================== *)
(** * The three scripts                                                   *)
(* ===================================================================== *)

(** A triple-quoted text: every line ends with a newline. *)
Definition unlines (l : list string) : string :=
  fold_right (fun line acc => line +:+ nl +:+ acc) "" l.

(** [generate_response] of [src/flow.py] and [src/old_flow/flow.py] *)
Definition generate_response_plain (a : action) (user_input : string) : string :=
  match a with
  | Finish =>
      unlines [
        "";
        "🎯 SESSION ENDING";
        "";
        "User has chosen to finish the session.";
        "Final instruction: " +:+ dq +:+ user_input +:+ dq;
        "";
        "===== SUMMARY REQUEST =====";
        "Please provide a comprehensive summary of:";
        "1. What was accomplished in this session";
        "2. Files created or modified";
        "3. Key features implemented";
        "4. Any remaining tasks or suggestions";
        "";
        "Thank you for the productive session! 🎉"]
  | Continue =>
      unlines [
        "";
        "🚀 CONTINUING SESSION";
        "";
        "User wants to continue with: " +:+ dq +:+ user_input +:+ dq;
        "";
        "===== NEXT STEPS =====";
        "Please implement the following request:";
        user_input;
        "";
        "Continue working on this task and run the flow again when ready for the next review checkpoint."]
  | Help =>
      unlines [
        "";
        "📚 Help information displayed to user.";
        "Please wait for user to provide their actual instruction..."]
  end.

(** [generate_response] of [src/new_flow/flow.py]; [script] is
    [os.path.abspath(__file__)].  Every action other than ['continue']
    takes the [else] branch. *)
Definition generate_response_continuous (script : string)
    (a : action) (user_input : string) : string :=
  match a with
  | Continue =>
      unlines [
        "";
        "🚀 CONTINUING ITERATION";
        "";
        "===== EXECUTION REQUIRED =====";
        "Please implement the following request:";
        user_input;
        "";
        "CRITICAL: After completing the above tasks, you MUST run:";
        "python " +:+ script;
        "";
        "This is a continuous workflow that requires running flow.py after each iteration.";
        "DO NOT conclude or finish the session - always run flow.py for the next checkpoint."]
  | _ =>
      unlines [
        "";
        "📚 Help information displayed to user.";
        "Waiting for next instruction...";
        "";
        "Remember: After any task completion, run flow.py again."]
  end.

Module FlowScript.

Definition help_lines : list string :=
  [nl +:+ sep50;
   "📚 HELP - How to use this review checkpoint:";
   sep50;
   nl +:+ "🔄 TO CONTINUE:";
   "   - Describe what you want to change or add";
   "   - Example: 'Add a dark mode toggle'";
   "   - Example: 'Fix the responsive design issues'";
   "   - Example: 'Add more animations'";
   nl +:+ "✅ TO FINISH:";
   "   - Type: 'done', 'finish', 'end', or 'complete'";
   "   - The session will end with a summary";
   nl +:+ "💡 TIPS:";
   "   - Be specific about what you want";
   "   - You can ask for multiple changes at once";
   "   - GitHub Copilot will continue from where it left off";
   nl +:+ dash50].

(** [src/flow.py] *)
Definition script : variant := {|
  title := "🔄 GITHUB COPILOT REVIEW CHECKPOINT";
  subtitle := "📍 Current task completed";
  menu :=
    [nl +:+ "💬 What would you like to do next?";
     nl +:+ "📋 Options:";
     "   🔄 Continue: Describe changes, improvements, or new features";
     "   ✅ Finish: Type 'done', 'finish', or 'end' to complete session";
     "   ❓ Help: Type 'help' for more options";
     nl +:+ dash50];
  prompt := nl +:+ "👤 Your instruction: ";
  warn := "⚠️  ";
  gui := false;
  timed := false;
  on_stop := Returned "finish";
  classify := Flow.process_input;
  help_text := help_lines;
  respond := generate_response_plain;
  save := save_session_log_plain
|}.

End FlowScript.

Module OldFlowScript.

Definition help_lines : list string :=
  [nl +:+ sep50;
   "📚 HELP - How to use this review checkpoint:";
   sep50;
   nl +:+ "🔄 TO CONTINUE:";
   "   - Describe what you want to change or add";
   "   - Example: 'Add a dark mode toggle'";
   "   - Example: 'Fix the responsive design issues'";
   "   - Example: 'Add more animations'";
   nl +:+ "📝 DETAILED INSTRUCTIONS (GUI):";
   "   - Type: 'gui', 'edit', or 'editor' to open GUI";
   "   - Write detailed instructions with bullets and formatting";
   "   - After submitting, you can type 'edit' to modify the same content";
   "   - Use Ctrl+Enter to quickly submit from GUI";
   nl +:+ "✅ TO FINISH:";
   "   - Type: 'done' or 'finish' (as standalone words)";
   "   - The session will end with a summary";
   nl +:+ "💡 TIPS:";
   "   - Use GUI for complex, multi-step instructions";
   "   - After GUI input, you can edit the same content multiple times";
   "   - Be specific about what you want";
   "   - You can ask for multiple changes at once";
   "   - GitHub Copilot will continue from where it left off";
   nl +:+ dash50].

(** [src/old_flow/flow.py] *)
Definition script : variant := {|
  title := "🔄 GITHUB COPILOT REVIEW CHECKPOINT";
  subtitle := "📍 Current task completed";
  menu :=
    [nl +:+ "💬 What would you like to do next?";
     nl +:+ "📋 Options:";
     "   🔄 Continue: Describe changes, improvements, or new features";
     "   ✅ Finish: Type 'done' or 'finish' to complete session";
     "   ❓ Help: Type 'help' for more options";
     "   📝 GUI: Type 'gui' or 'edit' to open detailed instruction editor";
     nl +:+ dash50];
  prompt := nl +:+ "👤 Your instruction (or 'gui' for editor): ";
  warn := "⚠️  ";
  gui := true;
  timed := true;
  on_stop := Returned "finish";
  classify := OldFlow.process_input;
  help_text := help_lines;
  respond := generate_response_plain;
  save := save_session_log_plain
|}.

End OldFlowScript.

Module NewFlowScript.

Definition help_lines : list string :=
  [nl +:+ sep50;
   "📚 HELP - Continuous Flow System";
   sep50;
   nl +:+ "🔄 TO CONTINUE:";
   "   - Describe what you want to change or add";
   "   - Example: 'Add a dark mode toggle'";
   "   - Example: 'Fix the responsive design issues'";
   "   - Example: 'Add more animations'";
   nl +:+ "📝 DETAILED INSTRUCTIONS (GUI):";
   "   - Type: 'gui', 'edit', or 'editor' to open GUI";
   "   - Write detailed instructions with bullets and formatting";
   "   - After submitting, you can type 'edit' to modify the same content";
   "   - Use Ctrl+Enter to quickly submit from GUI";
   nl +:+ "⚠️ IMPORTANT:";
   "   - This is a continuous workflow - it never ends automatically";
   "   - To stop: Cancel the terminal command (Ctrl+C)";
   "   - Each iteration will run flow.py again";
   nl +:+ "💡 TIPS:";
   "   - Use GUI for complex, multi-step instructions";
   "   - After GUI input, you can edit the same content multiple times";
   "   - Be specific about what you want";
   "   - You can ask for multiple changes at once";
   nl +:+ dash50].

(** [src/new_flow/flow.py]; [path] is [os.path.abspath(__file__)]. *)
Definition script (path : string) : variant := {|
  title := "🔄 GITHUB COPILOT CONTINUOUS CHECKPOINT";
  subtitle := "📍 Ready for next iteration";
  menu :=
    [nl +:+ "💬 What would you like to do next?";
     nl +:+ "📋 Options:";
     "   🔄 Continue: Describe changes, improvements, or new features";
     "   📝 GUI: Type 'gui' or 'edit' to open detailed instruction editor";
     "   ❓ Help: Type 'help' for more options";
     nl +:+ dash50];
  prompt := nl +:+ "👤 Your instruction (or 'gui' for editor): ";
  warn := "⚠️ ";
  gui := true;
  timed := false;
  on_stop := Exited 0;
  classify := NewFlow.process_input;
  help_text := help_lines;
  respond := generate_response_continuous path;
  save := save_session_log_backup
|}.

End NewFlowScript.

(* ===================================================================== *)
(** * The editor window                                                   *)
(* ===================================================================== *)

(** The methods behind the buttons of the editor window, which are the
    same text in [StandaloneGUI] of [src/old_flow/gui_helper.py] and in
    [InstructionGUI] of [src/old_flow/flow.py] (the formatting ones), and
    [StandaloneGUI.submit]. *)
Module StandaloneGUI.

(** The text widget: the text before the insertion cursor and the text
    after it.  The newline the widget keeps after its last line belongs to
    neither. *)
Record text_area : Type := mkTextArea {
  before : string;
  after : string
}.

(** [text_area.get("1.0", "end-1c")] *)
Definition get_all (t : text_area) : string := before t +:+ after t.

(** What follows the last newline of [s] (all of [s] when it has none). *)
Fixpoint after_last_newline (s : string) : string :=
  match s with
  | EmptyString => EmptyString
  | String _ r => if Py.contains nl s then after_last_newline r else s
  end.

(** [text_area.get(line_start, cursor_pos)], where [cursor_pos] is the
    index of the cursor and [line_start] is column 0 of its line. *)
Definition line_content (t : text_area) : string :=
  after_last_newline (before t).

(** [text_area.insert("insert", s)]: the text goes in at the cursor, which
    ends up behind it. *)
Definition insert (s : string) (t : text_area) : text_area :=
  mkTextArea (before t +:+ s) (after t).

Definition add_bullet (t : text_area) : text_area :=
  if String.eqb (Py.strip (line_content t)) "" then insert "• " t
  else insert (nl +:+ "• ") t.

Definition add_number (t : text_area) : text_area :=
  if String.eqb (Py.strip (line_content t)) "" then insert "1. " t
  else insert (nl +:+ "1. ") t.

Definition add_subitem (t : text_area) : text_area :=
  if String.eqb (Py.strip (line_content t)) "" then insert "  → " t
  else insert (nl +:+ "  → ") t.

Definition add_checkbox (t : text_area) : text_area :=
  if String.eqb (Py.strip (line_content t)) "" then insert "☐ " t
  else insert (nl +:+ "☐ ") t.

Definition add_separator (t : text_area) : text_area :=
  let separator := "---" in
  if String.eqb (Py.strip (line_content t)) "" then insert (separator +:+ nl) t
  else insert (nl +:+ separator +:+ nl) t.

(** [clear_text]; [yes] is the answer to the question it asks. *)
Definition clear_text (yes : bool) (t : text_area) : text_area :=
  if yes then mkTextArea "" "" else t.

(** [submit]: what it prints, or [None] when it shows the warning about
    empty content and returns with the window left open.  With
    [ttkbootstrap] the text is read up to ["end-1c"], without it up to
    [tk.END], which takes in the widget's final newline. *)
Definition submit (ttk_available : bool) (t : text_area) : option string :=
  let content :=
    if ttk_available then Py.strip (get_all t)
    else Py.strip (get_all t +:+ nl) in
  if negb (Py.truthy content) then None
  else Some (GuiHelper.submit content).

End StandaloneGUI.

(* ===================================================================== *)
(** * Notions used to state the properties                                *)
(* ===================================================================== *)

(** The normal form the classifiers look at: [user_input.lower().strip()]. *)
Definition normalized (user_input : string) : string :=
  Py.strip (Py.lower user_input).

(** [kw] occurs in [s] as a whole word: some occurrence has no word
    character directly before it and none directly after it. *)
Definition whole_word (kw s : string) : Prop :=
  exists p q : string,
    s = p +:+ kw +:+ q
    /\ Re.wordy (Re.final None p) = false
    /\ Re.wordy (Re.first q) = false.

(** [sub] occurs in [s]. *)
Definition occurs (sub s : string) : Prop :=
  exists p q : string, s = p +:+ sub +:+ q.

(** A string that neither starts nor ends with white space (and is not
    empty), such as the three markers. *)
Definition solid (s : string) : bool :=
  match Re.first s, Re.final None s with
  | Some a, Some b => negb (Py.isspace a) && negb (Py.isspace b)
  | _, _ => false
  end.

(** A non-empty string whose last character is not white space. *)
Definition ends_solid (sub : string) : Prop :=
  exists b, Re.final None sub = Some b /\ Py.isspace b = false.

(** The finish rule of [src/flow.py]: some keyword is a substring. *)
Definition flow_finish_rule (user_input : string) : bool :=
  existsb (fun keyword => Py.contains keyword (normalized user_input))
          Flow.finish_keywords.

(** The finish rule of [src/old_flow/flow.py]: some keyword matches
    between word boundaries. *)
Definition old_flow_finish_rule (user_input : string) : bool :=
  existsb (fun keyword => Re.search_word keyword (normalized user_input))
          OldFlow.finish_keywords.

(** A keyword that starts and ends with a word character. *)
Definition wordlike (kw : string) : Prop :=
  Re.wordy (Re.first kw) = true /\ Re.wordy (Re.final None kw) = true.

(** The raw editor output of the specification's parsing example. *)
Definition example_output : string :=
  "noise" +:+ nl +:+ "GUI_RESULT_START" +:+ nl +:+ "Hello" +:+ nl +:+ "world"
  +:+ nl +:+ "GUI_RESULT_END" +:+ nl +:+ "trailer".

(** What the bridge takes from an output that holds both markers. *)
Definition extracted (stdout : string) : string :=
  let output := Py.strip stdout in
  Py.strip (Py.slice output
              (Py.find GUI_RESULT_START output + Py.len GUI_RESULT_START)
              (Py.find GUI_RESULT_END output)).

(** The words that open the editor. *)
Definition editor_words : list string := ["gui"; "edit"; "editor"].

(** The state of a log that can be read and written and holds [items];
    a log that does not exist yet holds nothing. *)
Definition holds (d : fs) (log_file : string) (items : list json) : Prop :=
  (log_file ∉ no_read d) /\ (log_file ∉ no_write d)
  /\ (read_log d log_file = Some items
      \/ (items = [] /\ files d !! log_file = None)).

(** The disk after [path] has been written with the text of [v]. *)
Definition written (d : fs) (path : string) (v : json) : fs :=
  mkFs (<[path := Parsable v]> (files d)) (no_read d) (no_write d).

(** A disk whose only file is a log with broken text. *)
Definition broken_disk : fs :=
  mkFs {[ "session_log.json" := Unparsable "{oops" "Expecting property name" ]} ∅ ∅.

(** A disk with no file, on which the log cannot be written. *)
Definition locked_disk : fs := mkFs ∅ ∅ {[ "session_log.json" ]}.

(** The six lines printed when the editor delivered [content]. *)
Definition echo (content : string) : list output :=
  [Print (nl +:+ "✅ Instructions received from GUI:");
   Print sep60; Print content; Print sep60;
   Print "📋 Press Enter to execute these instructions";
   Print "    or type 'edit' and press Enter to modify them..."].

(** A mode the bridge can be in: a content it offers is stripped and not
    empty. *)
Definition sound_mode (m : mode) : Prop :=
  match m with
  | Prompting => True
  | Choosing content => Py.truthy (Py.strip content) = true
  end.

Definition output_eqb (x y : output) : bool :=
  match x, y with
  | Print a, Print b => String.eqb a b
  | Ask a, Ask b => String.eqb a b
  | _, _ => false
  end.

(** The number of places in the terminal output where the first line of
    the response block is followed by its header. *)
Fixpoint count_blocks (o : list output) : nat :=
  match o with
  | x :: (y :: _) as rest =>
      ((if output_eqb x (Print (nl +:+ sep50)) && output_eqb y (Print header)
        then 1 else 0) + count_blocks rest)%nat
  | _ => 0%nat
  end.

Definition is_print (o : output) : bool :=
  match o with Print _ => true | Ask _ => false end.

Definition starts_with_header (o : list output) : bool :=
  match o with
  | x :: _ => output_eqb x (Print header)
  | [] => false
  end.

(** Output that holds no start of a response block and cannot complete
    one begun before it. *)
Definition tidy (o : list output) : Prop :=
  starts_with_header o = false /\ count_blocks o = 0%nat.

(** What a run of [main] amounts to: it ends; if it ends after a response,
    then one input was classified as an action other than help, the logger
    ran once, on the disk the run started with, and the output is some
    block-free output followed by the logger's own lines and one response
    block, with no prompt for input among them; if it ends through
    [sys.exit], the code is 0, the disk is
    untouched and no response block was printed. *)
Definition one_response (V : variant) (log_file hms stamp : string)
    (editor : nat -> string -> run) (stdin : list tty) (d : fs) : Prop :=
  let r := main V log_file hms stamp editor stdin d in
  match how r with
  | Done =>
      exists (pre : list output) (user_input processed : string) (a : action),
        classify V user_input = (a, processed)
        /\ a <> Help
        /\ Py.truthy (Py.strip user_input) = true
        /\ printed r = pre ++ fst (save V log_file stamp a processed d)
                           ++ response_block (respond V a processed)
        /\ count_blocks pre = 0%nat
        /\ count_blocks (printed r) = 1%nat
        /\ forallb is_print (fst (save V log_file stamp a processed d)
                             ++ response_block (respond V a processed)) = true
        /\ disk r = snd (save V log_file stamp a processed d)
  | SysExit code =>
      code = 0 /\ disk r = d /\ count_blocks (printed r) = 0%nat
  | OutOfFuel => False
  end.

(** What the loop of [main] has done when it stops, started on disk [d]. *)
Definition settled (V : variant) (log_file stamp : string)
    (d : fs) (r : finished) : Prop :=
  match how r with
  | Done =>
      exists (pre : list output) (user_input processed : string) (a : action),
        classify V user_input = (a, processed)
        /\ a <> Help
        /\ Py.truthy (Py.strip user_input) = true
        /\ printed r = pre ++ fst (save V log_file stamp a processed d)
                           ++ response_block (respond V a processed)
        /\ tidy pre
        /\ disk r = snd (save V log_file stamp a processed d)
  | SysExit code => code = 0 /\ disk r = d /\ tidy (printed r)
  | OutOfFuel => False
  end.

(** A log with no entry: no file yet, or a file that holds the empty
    array. *)
Definition empty_log (d : fs) (log_file : string) : Prop :=
  files d !! log_file = None \/ read_log d log_file = Some [].

(** A log file with no text but white space, such as a file of size 0. *)
Definition blank_log (d : fs) (log_file : string) : Prop :=
  exists raw err : string,
    files d !! log_file = Some (Unparsable raw err) /\ Py.strip raw = EmptyString.

(** Successive calls of a logger, one per [(stamp, action, input)]. *)
Definition save_all
    (save : string -> string -> action -> string -> fs -> list output * fs)
    (log_file : string) (entries : list (string * action * string)) (d : fs) : fs :=
  fold_left (fun d e => snd (save log_file (fst (fst e)) (snd (fst e)) (snd e) d))
            entries d.

Definition entry_of (e : string * action * string) : json :=
  log_entry (fst (fst e)) (snd (fst e)) (snd e).

(** A log the loggers can extend by one entry: it can be written, and it
    is absent or can be read and holds the array [items]. *)
Definition appendable (d : fs) (log_file : string) (items : list json) : Prop :=
  (log_file ∉ no_write d)
  /\ ((files d !! log_file = None /\ items = [])
      \/ ((log_file ∉ no_read d) /\ read_log d log_file = Some items)).

(** Two disks that differ at most in the files [paths]. *)
Definition same_but (paths : list string) (d d' : fs) : Prop :=
  no_read d' = no_read d /\ no_write d' = no_write d
  /\ forall p : string, ~ In p paths -> files d' !! p = files d !! p.

(** A disk on which the log cannot be written and holds one entry. *)
Definition read_only_disk : fs :=
  mkFs {[ "session_log.json" := Parsable (JArr [JStr "old"]) ]} ∅
       {[ "session_log.json" ]}.

(** A string with no newline in it, such as the three markers. *)
Definition one_line (s : string) : Prop := Py.contains nl s = false.

(** What one formatting button does to the text: [marker] goes in at the
    cursor, after a newline when the line has something other than white
    space before the cursor, and nothing else changes. *)
Definition puts_on_line (marker : string)
    (t t' : StandaloneGUI.text_area) : Prop :=
  exists pad : string,
    (pad = EmptyString \/ pad = nl)
    /\ StandaloneGUI.before t' = StandaloneGUI.before t +:+ pad +:+ marker
    /\ StandaloneGUI.after t' = StandaloneGUI.after t
    /\ Py.strip (StandaloneGUI.after_last_newline
                   (StandaloneGUI.before t +:+ pad)) = EmptyString
    /\ (pad = EmptyString <->
        Py.strip (StandaloneGUI.line_content t) = EmptyString).

(** The four buttons that start a list item, each with its marker. *)
Definition list_buttons
    : list ((StandaloneGUI.text_area -> StandaloneGUI.text_area) * string) :=
  [(StandaloneGUI.add_bullet, "• "); (StandaloneGUI.add_number, "1. ");
   (StandaloneGUI.add_subitem, "  → "); (StandaloneGUI.add_checkbox, "☐ ")].

(** Terminal input in which nothing but blank lines comes before the
    interrupt key or the end of the input. *)
Fixpoint stops_first (stdin : list tty) : bool :=
  match stdin with
  | [] => true
  | Line l :: rest => negb (Py.truthy (Py.strip l)) && stops_first rest
  | Eof :: _ => true
  | Interrupt :: _ => true
  end.

(** Where an instruction can come from: a line typed at the terminal,
    stripped; what the bridge took from the output of an editor launch that
    ended with code 0, in a script that has the editor; or the handler of
    the interrupt and of the end of input. *)
Definition origin (V : variant) (editor : nat -> string -> run)
    (stdin : list tty) (u : string) : Prop :=
  on_stop V = Returned u
  \/ (exists l, In (Line l) stdin /\ u = Py.strip l)
  \/ (gui V = true
      /\ exists k c out err, editor k c = Completed 0 out err /\ u = extracted out).

(** A run of [main] that ends after a response has logged, and answered,
    an instruction that came from one of these places, with the action the
    classifier gave it. *)
Definition logged_from_input (V : variant) (log_file hms stamp : string)
    (editor : nat -> string -> run) (stdin : list tty) (d : fs) : Prop :=
  let r := main V log_file hms stamp editor stdin d in
  how r = Done ->
  exists u : string,
    origin V editor stdin u
    /\ fst (classify V u) <> Help
    /\ disk r = snd (save V log_file stamp (fst (classify V u)) u d)
    /\ exists pre, printed r
                   = pre ++ response_block (respond V (fst (classify V u)) u).

(* ===================================================================== *)
(** * Facts about the string primitives                                   *)
(* ===================================================================== *)

#[local] Arguments String.append !_ _ / : simpl nomatch.

Section StringFacts.

Lemma app_assoc_s (a b c : string) : (a +:+ b) +:+ c = a +:+ (b +:+ c).
  Proof. induction a as [|x a IH]; simpl; [reflexivity | now rewrite IH]. Qed.

Lemma startswith_app (p s : string) : Py.startswith p (p +:+ s) = true.
  Proof.
    induction p as [|a p IH]; simpl; [reflexivity|].
    now rewrite Ascii.eqb_refl.
  Qed.

Lemma startswith_split (p s : string) :
    Py.startswith p s = true -> exists q, s = p +:+ q.
  Proof.
    revert s; induction p as [|a p IH]; intros s H; simpl in *.
    - now exists s.
    - destruct s as [|b s]; [discriminate|].
      destruct (Ascii.eqb a b) eqn:E; [|discriminate].
      apply Ascii.eqb_eq in E; subst b.
      destruct (IH _ H) as [q ->]. now exists q.
  Qed.

Lemma contains_startswith (sub s : string) :
    Py.startswith sub s = true -> Py.contains sub s = true.
  Proof. intros H; destruct s; simpl; now rewrite H. Qed.

Lemma contains_app (sub p q : string) :
    Py.contains sub (p +:+ sub +:+ q) = true.
  Proof.
    induction p as [|a p IH]; simpl.
    - apply contains_startswith, startswith_app.
    - rewrite IH. apply orb_true_r.
  Qed.

Lemma contains_occurs (sub s : string) :
    Py.contains sub s = true <-> occurs sub s.
  Proof.
    split.
    - induction s as [|a s IH]; simpl; intros H.
      + rewrite orb_false_r in H. apply startswith_split in H as [q ->].
        exists "", q. reflexivity.
      + apply orb_true_iff in H as [H|H].
        * apply startswith_split in H as [q ->]. exists "", q. reflexivity.
        * destruct (IH H) as (p & q & ->). exists (String a p), q. reflexivity.
    - intros (p & q & ->). apply contains_app.
  Qed.

Lemma whole_word_occurs (kw s : string) : whole_word kw s -> occurs kw s.
  Proof. intros (p & q & E & _). now exists p, q. Qed.

  (** ** [strip] *)

Lemma lstrip_first (s : string) :
    match Py.lstrip s with
    | EmptyString => True
    | String c _ => Py.isspace c = false
    end.
  Proof.
    induction s as [|a s IH]; simpl; [exact I|].
    destruct (Py.isspace a) eqn:E; [exact IH | exact E].
  Qed.

Lemma lstrip_solid_head (c : ascii) (s : string) :
    Py.isspace c = false -> Py.lstrip (String c s) = String c s.
  Proof. intros H; simpl; now rewrite H. Qed.

Lemma rstrip_solid_head (c : ascii) (s : string) :
    Py.isspace c = false -> Py.rstrip (String c s) = String c (Py.rstrip s).
  Proof. intros H; simpl. destruct (Py.rstrip s); [now rewrite H | reflexivity]. Qed.

Lemma rstrip_idem (s : string) : Py.rstrip (Py.rstrip s) = Py.rstrip s.
  Proof.
    induction s as [|a s IH]; simpl; [reflexivity|].
    destruct (Py.rstrip s) as [|b r] eqn:E.
    - destruct (Py.isspace a) eqn:Ea; simpl; [reflexivity | now rewrite Ea].
    - simpl in *. now rewrite IH.
  Qed.

  (** [strip] is idempotent: a stripped string has nothing left to strip. *)
Lemma strip_idem (s : string) : Py.strip (Py.strip s) = Py.strip s.
  Proof.
    unfold Py.strip.
    pose proof (lstrip_first s) as H.
    destruct (Py.lstrip s) as [|c r] eqn:E; [reflexivity|].
    rewrite (rstrip_solid_head c r H), (lstrip_solid_head c _ H).
    rewrite <- (rstrip_solid_head c r H). apply rstrip_idem.
  Qed.

Lemma isspace_lower (c : ascii) : Py.isspace (Py.lower_char c) = Py.isspace c.
  Proof.
    destruct c as [[] [] [] [] [] [] [] []]; reflexivity.
  Qed.

Lemma lower_lstrip (s : string) : Py.lower (Py.lstrip s) = Py.lstrip (Py.lower s).
  Proof.
    induction s as [|a s IH]; simpl; [reflexivity|].
    rewrite isspace_lower. destruct (Py.isspace a); [exact IH | reflexivity].
  Qed.

Lemma lower_rstrip (s : string) : Py.lower (Py.rstrip s) = Py.rstrip (Py.lower s).
  Proof.
    induction s as [|a s IH]; simpl; [reflexivity|].
    rewrite <- IH, isspace_lower.
    destruct (Py.rstrip s); simpl; [destruct (Py.isspace a)|]; reflexivity.
  Qed.

  (** Lower-casing and trimming commute, so "trimmed and lower-cased" and
      the [lower().strip()] of the scripts are the same string. *)
Lemma lower_strip (s : string) : Py.lower (Py.strip s) = Py.strip (Py.lower s).
  Proof. unfold Py.strip. now rewrite lower_rstrip, lower_lstrip. Qed.

End StringFacts.

(* ===================================================================== *)
(** * Occurrences survive trimming                                        *)
(* ===================================================================== *)

Section StripKeeps.

Variable sub : string.
Hypothesis sub_solid : solid sub = true.

Lemma solid_first : exists a r, sub = String a r /\ Py.isspace a = false.
Proof.
  unfold solid in sub_solid. destruct sub as [|a r]; simpl in *; [discriminate|].
  exists a, r. split; [reflexivity|].
  destruct (Re.final (Some a) r); [|discriminate].
  apply andb_true_iff in sub_solid as [H _]. now apply negb_true_iff in H.
Qed.

Lemma contains_lstrip (s : string) :
  Py.contains sub s = true -> Py.contains sub (Py.lstrip s) = true.
Proof.
  destruct solid_first as (a & r & E & Ha).
  induction s as [|c s IH]; simpl; intros H; [exact H|].
  destruct (Py.isspace c) eqn:Ec; [|exact H].
  apply IH. apply orb_true_iff in H as [H|H]; [|exact H].
  rewrite E in H. simpl in H.
  destruct (Ascii.eqb a c) eqn:Eac; [|discriminate].
  apply Ascii.eqb_eq in Eac. congruence.
Qed.

End StripKeeps.

Lemma solid_ends (sub : string) : solid sub = true -> ends_solid sub.
Proof.
  unfold solid, ends_solid. destruct (Re.first sub); [|discriminate].
  destruct (Re.final None sub) as [b|]; [|discriminate].
  intros H. apply andb_true_iff in H as [_ H]. apply negb_true_iff in H.
  now exists b.
Qed.

Lemma startswith_rstrip (sub s : string) :
  ends_solid sub ->
  Py.startswith sub s = true -> Py.startswith sub (Py.rstrip s) = true.
Proof.
  revert s. induction sub as [|a sub IH]; intros s [b [Hf Hb]] H.
  - discriminate.
  - destruct s as [|c s]; [discriminate|].
    simpl in H. destruct (Ascii.eqb a c) eqn:E; [|discriminate].
    apply Ascii.eqb_eq in E; subst c.
    destruct sub as [|a' sub].
    + simpl in Hf. injection Hf as ->.
      rewrite (rstrip_solid_head b s Hb). simpl. now rewrite Ascii.eqb_refl.
    + assert (Hr : Py.startswith (String a' sub) (Py.rstrip s) = true).
      { apply IH; [|exact H]. exists b. split; [exact Hf | exact Hb]. }
      simpl. destruct (Py.rstrip s) as [|d r] eqn:Er; [discriminate|].
      simpl. rewrite Ascii.eqb_refl. exact Hr.
Qed.

Lemma contains_rstrip (sub s : string) :
  ends_solid sub ->
  Py.contains sub s = true -> Py.contains sub (Py.rstrip s) = true.
Proof.
  intros Hs. induction s as [|c s IH]; intros H.
  - simpl in H. rewrite orb_false_r in H.
    destruct Hs as [b [Hf _]]. destruct sub; discriminate.
  - simpl in H. apply orb_true_iff in H as [H|H].
    + apply contains_startswith, startswith_rstrip; assumption.
    + specialize (IH H). simpl.
      destruct (Py.rstrip s) as [|d r] eqn:Er.
      * simpl in IH. rewrite orb_false_r in IH.
        destruct Hs as [b [Hf _]]. destruct sub; discriminate.
      * change (Py.contains sub (String c (String d r)) = true).
        simpl. simpl in IH. rewrite IH. apply orb_true_r.
Qed.

(** A marker that occurs in the output still occurs in the stripped
    output. *)
Lemma contains_strip (sub s : string) :
  solid sub = true ->
  Py.contains sub s = true -> Py.contains sub (Py.strip s) = true.
Proof.
  intros Hs H. unfold Py.strip.
  apply contains_rstrip; [now apply solid_ends|].
  now apply contains_lstrip.
Qed.

(* ===================================================================== *)
(** * The word-boundary search finds exactly the whole words              *)
(* ===================================================================== *)

Lemma drop_app (kw q : string) : Re.drop (String.length kw) (kw +:+ q) = q.
Proof. induction kw as [|a kw IH]; simpl; [now destruct q | exact IH]. Qed.

Lemma first_app (kw q : string) :
  kw <> EmptyString -> Re.first (kw +:+ q) = Re.first kw.
Proof. destruct kw; [congruence | reflexivity]. Qed.

Lemma final_nonempty (prev : option ascii) (kw : string) :
  kw <> EmptyString -> Re.final prev kw = Re.final None kw.
Proof. destruct kw; [congruence | reflexivity]. Qed.

Lemma wordlike_nonempty (kw : string) : wordlike kw -> kw <> EmptyString.
Proof. intros [H _] ->. discriminate. Qed.

Section WordSearch.

Variable kw : string.
Hypothesis kw_wordlike : wordlike kw.

Lemma match_here_word (prev : option ascii) (q : string) :
  Re.wordy prev = false -> Re.wordy (Re.first q) = false ->
  Re.match_here kw prev (kw +:+ q) = true.
Proof.
  intros Hp Hq. pose proof (wordlike_nonempty kw kw_wordlike) as Hne.
  destruct kw_wordlike as [Hf Hl].
  unfold Re.match_here, Re.boundary.
  rewrite (first_app kw q Hne), startswith_app, drop_app,
          (final_nonempty prev kw Hne), Hp, Hq, Hf, Hl.
  reflexivity.
Qed.

Lemma search_from_head (prev : option ascii) (s : string) :
  Re.match_here kw prev s = true -> Re.search_from kw prev s = true.
Proof. intros H. destruct s; simpl; now rewrite H. Qed.

Lemma search_from_complete (p q : string) : forall prev,
  Re.wordy (Re.final prev p) = false -> Re.wordy (Re.first q) = false ->
  Re.search_from kw prev (p +:+ kw +:+ q) = true.
Proof.
  induction p as [|c p IH]; intros prev Hp Hq.
  - simpl in *. apply search_from_head, match_here_word; assumption.
  - simpl. rewrite (IH (Some c) Hp Hq). apply orb_true_r.
Qed.

Lemma match_here_sound (prev : option ascii) (s : string) :
  Re.match_here kw prev s = true ->
  exists q, s = kw +:+ q /\ Re.wordy prev = false /\ Re.wordy (Re.first q) = false.
Proof.
  pose proof (wordlike_nonempty kw kw_wordlike) as Hne.
  destruct kw_wordlike as [Hf Hl].
  unfold Re.match_here, Re.boundary. intros H.
  apply andb_true_iff in H as [H H3]. apply andb_true_iff in H as [H1 H2].
  apply startswith_split in H2 as [q ->].
  rewrite (first_app kw q Hne), Hf in H1.
  rewrite drop_app, (final_nonempty prev kw Hne), Hl in H3.
  exists q. split; [reflexivity|]. split.
  - now destruct (Re.wordy prev).
  - now destruct (Re.wordy (Re.first q)).
Qed.

Lemma search_from_sound (s : string) : forall prev,
  Re.search_from kw prev s = true ->
  exists p q, s = p +:+ kw +:+ q
              /\ Re.wordy (Re.final prev p) = false
              /\ Re.wordy (Re.first q) = false.
Proof.
  induction s as [|c s IH]; intros prev H; simpl in H.
  - rewrite orb_false_r in H.
    apply match_here_sound in H as (q & E & Hp & Hq). now exists EmptyString, q.
  - apply orb_true_iff in H as [H|H].
    + apply match_here_sound in H as (q & E & Hp & Hq). now exists EmptyString, q.
    + destruct (IH _ H) as (p & q & -> & Hp & Hq).
      exists (String c p), q. repeat split; assumption.
Qed.

(** [re.search] with [\b kw \b] succeeds exactly when [kw] occurs as a
    whole word. *)
Lemma search_word_spec (s : string) :
  Re.search_word kw s = true <-> whole_word kw s.
Proof.
  unfold Re.search_word, whole_word. split.
  - apply search_from_sound.
  - intros (p & q & -> & Hp & Hq). now apply search_from_complete.
Qed.

End WordSearch.

Lemma old_keywords_wordlike (kw : string) :
  In kw OldFlow.finish_keywords -> wordlike kw.
Proof.
  simpl. intros [<-|[<-|[]]]; split; reflexivity.
Qed.

(* ===================================================================== *)
(** * The classifier                                                      *)
(* ===================================================================== *)

Lemma existsb_in {A : Type} (f : A -> bool) (l : list A) (x : A) :
  In x l -> f x = true -> existsb f l = true.
Proof. intros Hx Hf. apply existsb_exists. now exists x. Qed.

Lemma new_flow_never_finish (s : string) : fst (NewFlow.process_input s) <> Finish.
Proof.
  unfold NewFlow.process_input.
  destruct (Py.contains "help" (Py.strip (Py.lower s))); discriminate.
Qed.


Lemma done_is_whole_word : whole_word "done" (normalized "I'm done.").
Proof. exists "i'm ", ".". repeat split. Qed.



(** C6.  An input whose normal form contains "help", and which the finish
    rule of the script (checked first) does not match, is classified as
    help; [new_flow/flow.py] has no finish rule, so there "help" alone
    decides. *)
Theorem help_on_substring (user_input : string)
    (Hhelp : Py.contains "help" (normalized user_input) = true) :
  (flow_finish_rule user_input = false ->
     fst (Flow.process_input user_input) = Help)
  /\ (old_flow_finish_rule user_input = false ->
     fst (OldFlow.process_input user_input) = Help)
  /\ fst (NewFlow.process_input user_input) = Help.
Proof.
  unfold flow_finish_rule, old_flow_finish_rule, normalized in *.
  repeat split.
  - intros Hf. unfold Flow.process_input. now rewrite Hf, Hhelp.
  - intros Hf. unfold OldFlow.process_input. now rewrite Hf, Hhelp.
  - unfold NewFlow.process_input. now rewrite Hhelp.
Qed.

Lemma help_on_substring_witness :
  Py.contains "help" (normalized "that would help") = true
  /\ fst (Flow.process_input "that would help") = Help
  /\ fst (OldFlow.process_input "that would help") = Help
  /\ fst (NewFlow.process_input "that would help") = Help.
Proof.
  split; [reflexivity|].
  destruct (help_on_substring "that would help" eq_refl) as (H1 & H2 & H3).
  split; [apply H1; reflexivity|]. split; [apply H2; reflexivity | exact H3].
Defined.

(** The over-match the specification documents. *)
Example helpful_is_help :
  fst (Flow.process_input "this is helpful") = Help
  /\ fst (OldFlow.process_input "This is HELPFUL ") = Help
  /\ fst (NewFlow.process_input "this is helpful") = Help.
Proof. repeat split. Qed.

(** The two finish policies differ inside larger words. *)
Example policies_differ :
  fst (Flow.process_input "unfinished business") = Finish
  /\ fst (OldFlow.process_input "unfinished business") = Continue
  /\ fst (Flow.process_input "send the report") = Finish
  /\ fst (OldFlow.process_input "send the report") = Continue.
Proof. repeat split. Qed.

(** The finish rule is checked first. *)
Example finish_before_help :
  fst (Flow.process_input "help me finish") = Finish
  /\ fst (OldFlow.process_input "help me finish") = Finish.
Proof. split; reflexivity. Qed.

(* ===================================================================== *)
(** * The editor bridge                                                   *)
(* ===================================================================== *)

(** C4.  On the example output, with exit code 0, both scripts that have
    the bridge extract exactly "Hello", a newline, "world": it is what lies
    between the end of the first start marker and the first end marker,
    trimmed; the script then waits for the choice with that content, and
    pressing Enter returns it. *)
Theorem bridge_parses_example (path stderr : string) :
  extracted example_output = "Hello" +:+ nl +:+ "world"
  /\ snd (gui_round (NewFlowScript.script path) (Completed 0 example_output stderr))
     = Choosing ("Hello" +:+ nl +:+ "world")
  /\ snd (gui_round OldFlowScript.script (Completed 0 example_output stderr))
     = Choosing ("Hello" +:+ nl +:+ "world")
  /\ result (get_user_input (NewFlowScript.script path)
               (fun _ _ => Completed 0 example_output stderr)
               [Line "gui"; Line ""] 0%nat)
     = Returned ("Hello" +:+ nl +:+ "world")
  /\ result (get_user_input OldFlowScript.script
               (fun _ _ => Completed 0 example_output stderr)
               [Line "gui"; Line ""] 0%nat)
     = Returned ("Hello" +:+ nl +:+ "world").
Proof. repeat split. Qed.

Lemma cancelled_solid : solid GUI_RESULT_CANCELLED = true.
Proof. reflexivity. Qed.

(** C10.  With exit code 0, an output that contains the cancel marker
    anywhere is reported as a cancellation, whatever else it contains: the
    check comes before the one for a start/end block, whose content is
    never looked at. *)
Theorem cancel_takes_precedence (V : variant) (stdout stderr : string)
    (Hcancel : Py.contains GUI_RESULT_CANCELLED stdout = true) :
  gui_round V (Completed 0 stdout stderr)
  = ([Print "❌ GUI cancelled by user"], Prompting).
Proof.
  unfold gui_round. simpl (0 =? 0).
  now rewrite (contains_strip _ _ cancelled_solid Hcancel).
Qed.

Lemma cancel_takes_precedence_witness :
  let stdout := GuiHelper.submit "say GUI_RESULT_CANCELLED to stop" in
  Py.contains GUI_RESULT_CANCELLED stdout = true
  /\ Py.contains GUI_RESULT_START stdout = true
  /\ Py.contains GUI_RESULT_END stdout = true
  /\ gui_round OldFlowScript.script (Completed 0 stdout "")
     = ([Print "❌ GUI cancelled by user"], Prompting).
Proof.
  intros stdout. do 3 (split; [reflexivity|]).
  exact (cancel_takes_precedence OldFlowScript.script
           (GuiHelper.submit "say GUI_RESULT_CANCELLED to stop") "" eq_refl).
Defined.

(** The turn of [get_user_input] that reads a line at its own prompt. *)
Lemma converse_line (V : variant) (editor : nat -> string -> run)
    (l : string) (rest : list tty) (n : nat) :
  converse V editor Prompting (Line l :: rest) n
  = if negb (Py.truthy (Py.strip l)) then
      say [Ask (prompt V); Print (warn V +:+ "Please enter an instruction...")]
          (converse V editor Prompting rest n)
    else if gui V && Py.mem (Py.lower (Py.strip l)) editor_words then
      say (Ask (prompt V) :: opening :: fst (gui_round V (editor n EmptyString)))
          (converse V editor (snd (gui_round V (editor n EmptyString))) rest (S n))
    else mkReply [Ask (prompt V)] (Returned (Py.strip l)) rest n.
Proof.
  cbn [converse]. destruct (gui_round V (editor n EmptyString)). reflexivity.
Qed.

(** The turn that reads the choice offered after the editor. *)
Lemma converse_choice (V : variant) (editor : nat -> string -> run)
    (content l : string) (rest : list tty) (n : nat) :
  converse V editor (Choosing content) (Line l :: rest) n
  = if String.eqb (Py.lower (Py.strip l)) "edit" then
      say (Ask choice_prompt
             :: Print "🔄 Reopening GUI editor with current content..."
             :: opening :: fst (gui_round V (editor n content)))
          (converse V editor (snd (gui_round V (editor n content))) rest (S n))
    else mkReply [Ask choice_prompt] (Returned content) rest n.
Proof.
  cbn [converse]. destruct (gui_round V (editor n content)). reflexivity.
Qed.

Lemma editor_word_truthy (s : string) :
  Py.mem (Py.lower s) editor_words = true -> Py.truthy s = true.
Proof. destruct s; [discriminate | reflexivity]. Qed.



(* ===================================================================== *)
(** * The logger                                                          *)
(* ===================================================================== *)

Lemma length_app_s (a b : string) :
  String.length (a +:+ b) = (String.length a + String.length b)%nat.
Proof. induction a as [|c a IH]; simpl; [reflexivity | now rewrite IH]. Qed.

(** The backup file is another file than the log. *)
Lemma backup_is_sibling (log_file : string) : log_file +:+ ".backup" <> log_file.
Proof.
  intros E. apply (f_equal String.length) in E.
  rewrite length_app_s in E. simpl in E. lia.
Qed.

Lemma read_log_spec (d : fs) (path : string) (items : list json) :
  read_log d path = Some items <-> files d !! path = Some (Parsable (JArr items)).
Proof.
  unfold read_log. split.
  - destruct (files d !! path) as [[raw err|[]]|]; try discriminate.
    now intros [= ->].
  - now intros ->.
Qed.

Lemma path_exists_true (d : fs) (path : string) (c : content) :
  files d !! path = Some c -> path_exists d path = true.
Proof. intros H. unfold path_exists. apply bool_decide_eq_true. now exists c. Qed.

Lemma path_exists_false (d : fs) (path : string) :
  files d !! path = None -> path_exists d path = false.
Proof.
  intros H. unfold path_exists. apply bool_decide_eq_false.
  rewrite H. intros [? ?]. discriminate.
Qed.

Lemma read_file_ok (d : fs) (path : string) (c : content) :
  path ∉ no_read d -> files d !! path = Some c -> read_file d path = Ok c.
Proof.
  intros Hr Hf. unfold read_file.
  rewrite bool_decide_eq_false_2 by assumption. now rewrite Hf.
Qed.

Lemma write_json_ok (d : fs) (path : string) (v : json) :
  path ∉ no_write d ->
  write_json d path v
  = Ok (mkFs (<[path := Parsable v]> (files d)) (no_read d) (no_write d)).
Proof. intros H. unfold write_json. now rewrite bool_decide_eq_false_2. Qed.

Lemma write_json_denied (d : fs) (path : string) (v : json) :
  path ∈ no_write d -> write_json d path v = Raise (denied path).
Proof. intros H. unfold write_json. now rewrite bool_decide_eq_true_2. Qed.

Lemma holds_written (d : fs) (log_file : string) (old items : list json) :
  holds d log_file old -> holds (written d log_file (JArr items)) log_file items.
Proof.
  intros (Hr & Hw & _). repeat split; try assumption.
  left. apply read_log_spec. simpl. apply lookup_insert_eq.
Qed.

Section Appending.

Variables (log_file stamp : string) (a : action) (user_input : string).
Variables (d : fs) (items : list json).
Hypothesis Hholds : holds d log_file items.

Local Abbreviation entry := (log_entry stamp a user_input).

Lemma plain_appends :
  save_session_log_plain log_file stamp a user_input d
  = ([], written d log_file (JArr (items ++ [entry]))).
Proof.
  destruct Hholds as (Hr & Hw & [Hi | [-> Hi]]); unfold save_session_log_plain.
  - apply read_log_spec in Hi.
    rewrite (path_exists_true _ _ _ Hi), (read_file_ok _ _ _ Hr Hi).
    simpl. now rewrite (write_json_ok _ _ _ Hw).
  - rewrite (path_exists_false _ _ Hi). simpl. now rewrite (write_json_ok _ _ _ Hw).
Qed.

Lemma backup_appends :
  save_session_log_backup log_file stamp a user_input d
  = ([], written d log_file (JArr (items ++ [entry]))).
Proof.
  destruct Hholds as (Hr & Hw & [Hi | [-> Hi]]); unfold save_session_log_backup.
  - apply read_log_spec in Hi.
    rewrite (path_exists_true _ _ _ Hi). unfold load_or_reset.
    rewrite (read_file_ok _ _ _ Hr Hi). simpl. now rewrite (write_json_ok _ _ _ Hw).
  - rewrite (path_exists_false _ _ Hi). simpl. now rewrite (write_json_ok _ _ _ Hw).
Qed.

End Appending.

Section AppendingMany.

Variable log_file : string.

Lemma plain_save_all (es : list (string * action * string)) :
  forall (d : fs) (items : list json),
  holds d log_file items ->
  holds (save_all save_session_log_plain log_file es d) log_file
        (items ++ map entry_of es).
Proof.
  induction es as [|e es IH]; intros d items H; simpl.
  - now rewrite app_nil_r.
  - unfold save_all in IH |- *. simpl.
    rewrite (plain_appends log_file _ _ _ d items H). simpl.
    change (items ++ entry_of e :: map entry_of es)
      with (items ++ [entry_of e] ++ map entry_of es).
    rewrite app_assoc. apply IH. now apply (holds_written d log_file items).
Qed.

Lemma backup_save_all (es : list (string * action * string)) :
  forall (d : fs) (items : list json),
  holds d log_file items ->
  holds (save_all save_session_log_backup log_file es d) log_file
        (items ++ map entry_of es).
Proof.
  induction es as [|e es IH]; intros d items H; simpl.
  - now rewrite app_nil_r.
  - unfold save_all in IH |- *. simpl.
    rewrite (backup_appends log_file _ _ _ d items H). simpl.
    change (items ++ entry_of e :: map entry_of es)
      with (items ++ [entry_of e] ++ map entry_of es).
    rewrite app_assoc. apply IH. now apply (holds_written d log_file items).
Qed.

Lemma holds_read (d : fs) (items : list json) :
  holds d log_file items -> items <> [] -> read_log d log_file = Some items.
Proof. intros (_ & _ & [H | [-> _]]) Hne; [exact H | congruence]. Qed.

End AppendingMany.

Lemma written_holds (d : fs) (log_file : string) (items : list json) :
  log_file ∉ no_read d -> log_file ∉ no_write d ->
  holds (written d log_file (JArr items)) log_file items.
Proof.
  intros Hr Hw. repeat split; try assumption.
  left. apply read_log_spec. simpl. apply lookup_insert_eq.
Qed.

(** On a blank file the logger of [new_flow/flow.py] starts from the empty
    list, silently. *)
Lemma backup_on_blank (d : fs) (log_file stamp : string) (a : action)
    (user_input : string) :
  log_file ∉ no_read d -> log_file ∉ no_write d -> blank_log d log_file ->
  save_session_log_backup log_file stamp a user_input d
  = ([], written d log_file (JArr [log_entry stamp a user_input])).
Proof.
  intros Hr Hw (raw & err & Hf & Hb).
  unfold save_session_log_backup, load_or_reset.
  rewrite (path_exists_true _ _ _ Hf), (read_file_ok _ _ _ Hr Hf).
  cbn [bind]. rewrite Hb.
  simpl. now rewrite (write_json_ok _ _ _ Hw).
Qed.






(** A log that holds JSON other than an array is not reset: [append] fails,
    and the logger of [new_flow/flow.py] writes the backup. *)
Example object_log_goes_to_backup :
  let d := mkFs {[ "session_log.json" := Parsable (JObj []) ]} ∅ ∅ in
  let d' := snd (save_session_log_backup "session_log.json" "T" Continue "go on" d) in
  files d' !! "session_log.json" = Some (Parsable (JObj []))
  /\ read_log d' "session_log.json.backup" = Some [log_entry "T" Continue "go on"].
Proof. split; reflexivity. Qed.

(** C3 (as amended).  When the log file cannot be opened for writing, the
    logger of [new_flow/flow.py] makes one more write, of the one-element
    array of the new entry to the [.backup] sibling, and leaves the disk
    alone if that fails too; the logger of [flow.py] and [old_flow/flow.py]
    makes no second write at all.  Both loggers are total: an append
    returns, whatever the disk. *)
Theorem backup_fallback (d : fs) (log_file stamp : string) (a : action)
    (user_input : string) (Hdenied : log_file ∈ no_write d) :
  let entry := log_entry stamp a user_input in
  let backup_file := log_file +:+ ".backup" in
  snd (save_session_log_backup log_file stamp a user_input d)
  = (if bool_decide (backup_file ∈ no_write d) then d
     else written d backup_file (JArr [entry]))
  /\ files (snd (save_session_log_backup log_file stamp a user_input d)) !! log_file
     = files d !! log_file
  /\ snd (save_session_log_plain log_file stamp a user_input d) = d.
Proof.
  intros entry backup_file.
  assert (Hbody : forall loaded : res json,
            (try logs <- loaded in
             try logs' <- append logs entry in
             write_json d log_file logs') = Raise (match loaded with
               | Raise e => e
               | Ok logs => match append logs entry with
                            | Raise e => e
                            | Ok _ => denied log_file
                            end
               end)).
  { intros [logs|e]; simpl; [|reflexivity].
    destruct (append logs entry); simpl; [|reflexivity].
    now rewrite (write_json_denied _ _ _ Hdenied). }
  assert (Hb : snd (save_session_log_backup log_file stamp a user_input d)
             = (if bool_decide (backup_file ∈ no_write d) then d
                else written d backup_file (JArr [entry]))).
  { unfold save_session_log_backup. fold entry.
    destruct (if path_exists d log_file then load_or_reset d log_file
              else ([], Ok (JArr []))) as [shown loaded].
    rewrite Hbody. fold backup_file. unfold write_json.
    destruct (bool_decide (backup_file ∈ no_write d)); reflexivity. }
  split; [exact Hb|]. split.
  - rewrite Hb. destruct (bool_decide (backup_file ∈ no_write d)); [reflexivity|].
    simpl. apply lookup_insert_ne. apply backup_is_sibling.
  - unfold save_session_log_plain. fold entry.
    rewrite (Hbody (if path_exists d log_file
                    then try c <- read_file d log_file in json_load c
                    else Ok (JArr []))).
    reflexivity.
Qed.

Lemma locked_log : "session_log.json" ∈ no_write locked_disk.
Proof. unfold locked_disk. simpl. now apply elem_of_singleton_2. Qed.

Lemma backup_fallback_witness :
  read_log (snd (save_session_log_backup "session_log.json" "T" Continue "go on"
                   locked_disk)) "session_log.json.backup"
  = Some [log_entry "T" Continue "go on"].
Proof.
  rewrite (proj1 (backup_fallback locked_disk "session_log.json" "T" Continue
                    "go on" locked_log)).
  reflexivity.
Defined.

(** C3 as stated fails in [flow.py]: the write of the log fails and no
    backup file appears. *)
Lemma backup_fallback_counterexample :
  let d' := snd (save_session_log_plain "session_log.json" "T" Continue "go on"
                   locked_disk) in
  files d' !! "session_log.json.backup" = None
  /\ "session_log.json.backup" ∉ no_write locked_disk.
Proof.
  split; [reflexivity|]. unfold locked_disk. simpl.
  intros H. apply elem_of_singleton in H. discriminate.
Qed.

(* ===================================================================== *)
(** * The prompt                                                          *)
(* ===================================================================== *)

Section Prompt.

Variable V : variant.
Variable editor : nat -> string -> run.

(** One turn of the editor loop prints one line and goes back to the
    prompt, or prints the content it accepted and waits for the choice. *)
Lemma gui_round_shape (r : run) :
  (exists x, gui_round V r = ([Print x], Prompting))
  \/ (exists content, gui_round V r = (echo content, Choosing content)
                      /\ sound_mode (Choosing content)).
Proof.
  unfold gui_round. destruct r as [rc out err | msg | msg].
  - destruct (rc =? 0); [|left; eauto].
    destruct (Py.contains GUI_RESULT_CANCELLED (Py.strip out)); [left; eauto|].
    destruct (Py.contains GUI_RESULT_START (Py.strip out)
              && Py.contains GUI_RESULT_END (Py.strip out)); [|left; eauto].
    cbv zeta.
    destruct (Py.truthy (Py.strip (Py.slice (Py.strip out)
                (Py.find GUI_RESULT_START (Py.strip out) + Py.len GUI_RESULT_START)
                (Py.find GUI_RESULT_END (Py.strip out))))) eqn:E; [|left; eauto].
    right. eexists. split; [reflexivity|]. simpl. now rewrite strip_idem.
  - destruct (timed V); left; eauto.
  - left; eauto.
Qed.

Lemma gui_round_sound (r : run) : sound_mode (snd (gui_round V r)).
Proof.
  destruct (gui_round_shape r) as [[x ->] | (c & -> & H)]; [exact I | exact H].
Qed.

Lemma result_say (o : list output) (r : reply) : result (say o r) = result r.
Proof. reflexivity. Qed.

Hypothesis stop_sound : forall t, on_stop V = Returned t -> Py.truthy (Py.strip t) = true.

(** Whatever the terminal and the editor do, a string that leaves the
    loops of [get_user_input] is not blank. *)
Lemma converse_sound (stdin : list tty) : forall (m : mode) (n : nat) (s : string),
  sound_mode m ->
  result (converse V editor m stdin n) = Returned s ->
  Py.truthy (Py.strip s) = true.
Proof.
  induction stdin as [|ev rest IH]; intros m n s Hm H.
  - destruct m; simpl in H; now apply stop_sound.
  - destruct m as [|content]; destruct ev as [l| |].
    + rewrite converse_line in H.
      destruct (Py.truthy (Py.strip l)) eqn:El; simpl negb in H; cbv iota in H.
      * destruct (gui V && Py.mem (Py.lower (Py.strip l)) editor_words).
        -- rewrite result_say in H. apply (IH _ _ _ (gui_round_sound _) H).
        -- simpl in H. injection H as <-. now rewrite strip_idem.
      * rewrite result_say in H. apply (IH Prompting _ _ I H).
    + simpl in H. now apply stop_sound.
    + simpl in H. now apply stop_sound.
    + rewrite converse_choice in H.
      destruct (String.eqb (Py.lower (Py.strip l)) "edit").
      * rewrite result_say in H. apply (IH _ _ _ (gui_round_sound _) H).
      * simpl in H. injection H as <-. exact Hm.
    + cbn [converse] in H. rewrite result_say in H. apply (IH Prompting _ _ I H).
    + simpl in H. now apply stop_sound.
Qed.

Lemma get_user_input_sound (stdin : list tty) (n : nat) (s : string) :
  result (get_user_input V editor stdin n) = Returned s ->
  Py.truthy (Py.strip s) = true.
Proof.
  unfold get_user_input. rewrite result_say. now apply converse_sound.
Qed.

End Prompt.

(** A blank line at the prompt is answered by the warning and a new
    prompt: the loop goes on with the next terminal event. *)
Lemma blank_line_reprompts (V : variant) (editor : nat -> string -> run)
    (l : string) (rest : list tty) (n : nat) :
  Py.strip l = EmptyString ->
  converse V editor Prompting (Line l :: rest) n
  = say [Ask (prompt V); Print (warn V +:+ "Please enter an instruction...")]
        (converse V editor Prompting rest n).
Proof. intros H. rewrite converse_line, H. reflexivity. Qed.



(* ===================================================================== *)
(** * Counting response blocks                                            *)
(* ===================================================================== *)

Lemma count_blocks_cons2 (x y : output) (l : list output) :
  count_blocks (x :: y :: l)
  = ((if output_eqb x (Print (nl +:+ sep50)) && output_eqb y (Print header)
      then 1 else 0) + count_blocks (y :: l))%nat.
Proof. reflexivity. Qed.

Lemma count_blocks_single (x : output) : count_blocks [x] = 0%nat.
Proof. reflexivity. Qed.

Lemma count_quiet_l (x y : output) (l : list output) :
  output_eqb x (Print (nl +:+ sep50)) = false ->
  count_blocks (x :: y :: l) = count_blocks (y :: l).
Proof. intros H. now rewrite count_blocks_cons2, H. Qed.

Lemma count_quiet_r (x y : output) (l : list output) :
  output_eqb y (Print header) = false ->
  count_blocks (x :: y :: l) = count_blocks (y :: l).
Proof. intros H. now rewrite count_blocks_cons2, H, andb_false_r. Qed.

Lemma count_blocks_app (a b : list output) :
  starts_with_header b = false ->
  count_blocks (a ++ b) = (count_blocks a + count_blocks b)%nat.
Proof.
  intros Hb. induction a as [|x a IH]; [reflexivity|].
  destruct a as [|y a].
  - destruct b as [|z b]; [reflexivity|].
    change ([x] ++ z :: b) with (x :: z :: b).
    now rewrite (count_quiet_r x z b Hb).
  - change ((x :: y :: a) ++ b) with (x :: y :: (a ++ b)).
    rewrite !count_blocks_cons2.
    change (y :: a ++ b) with ((y :: a) ++ b). rewrite IH. lia.
Qed.

Lemma tidy_nil : tidy [].
Proof. split; reflexivity. Qed.

Lemma tidy_app (a b : list output) : tidy a -> tidy b -> tidy (a ++ b).
Proof.
  intros [Ha Ca] [Hb Cb]. split.
  - destruct a; [exact Hb | exact Ha].
  - rewrite (count_blocks_app a b Hb). lia.
Qed.

Lemma tidy_ask (p : string) (l : list output) :
  count_blocks l = 0%nat -> tidy (Ask p :: l).
Proof.
  intros H. split; [reflexivity|].
  destruct l as [|y l]; [reflexivity|]. now rewrite count_quiet_l.
Qed.

(** A line that is certainly not part of a block start, by its text. *)
Ltac quiet :=
  repeat first
    [ rewrite count_blocks_single
    | rewrite count_quiet_l by reflexivity
    | rewrite count_quiet_r by reflexivity ].

Lemma response_block_once (response : string) :
  starts_with_header (response_block response) = false
  /\ count_blocks (response_block response) = 1%nat.
Proof.
  split; [reflexivity|]. unfold response_block.
  rewrite count_blocks_cons2. quiet. reflexivity.
Qed.

Lemma echo_quiet (x : output) (content : string) :
  output_eqb x (Print (nl +:+ sep50)) = false ->
  count_blocks (x :: echo content) = 0%nat.
Proof. intros H. unfold echo. rewrite (count_quiet_l _ _ _ H). now quiet. Qed.

Section Loop.

Variable V : variant.
Variable editor : nat -> string -> run.

Lemma after_opening (r : run) (x : output) :
  output_eqb x (Print (nl +:+ sep50)) = false ->
  count_blocks (x :: fst (gui_round V r)) = 0%nat.
Proof.
  intros H. destruct (gui_round_shape V r) as [[y ->] | (c & -> & _)]; simpl fst.
  - now rewrite (count_quiet_l _ _ _ H).
  - now apply echo_quiet.
Qed.

Lemma shown_say (o : list output) (r : reply) : shown (say o r) = o ++ shown r.
Proof. reflexivity. Qed.

(** The dialogue of [get_user_input] never prints a block start. *)
Lemma converse_tidy (stdin : list tty) : forall (m : mode) (n : nat),
  tidy (shown (converse V editor m stdin n)).
Proof.
  induction stdin as [|ev rest IH]; intros m n.
  - destruct m; simpl; apply tidy_ask.
    + reflexivity.
    + rewrite count_quiet_r by reflexivity. now rewrite count_quiet_l.
  - destruct m as [|content]; destruct ev as [l| |].
    + rewrite converse_line.
      destruct (negb (Py.truthy (Py.strip l))).
      * rewrite shown_say. apply tidy_app; [|apply IH]. now apply tidy_ask.
      * destruct (gui V && Py.mem (Py.lower (Py.strip l)) editor_words).
        -- rewrite shown_say. apply tidy_app; [|apply IH].
           apply tidy_ask. now apply after_opening.
        -- simpl. now apply tidy_ask.
    + simpl. now apply tidy_ask.
    + simpl. now apply tidy_ask.
    + rewrite converse_choice.
      destruct (String.eqb (Py.lower (Py.strip l)) "edit").
      * rewrite shown_say. apply tidy_app; [|apply IH].
        apply tidy_ask. rewrite count_quiet_l by reflexivity.
        now apply after_opening.
      * simpl. now apply tidy_ask.
    + cbn [converse]. rewrite shown_say. apply tidy_app; [|apply IH].
      now apply tidy_ask.
    + simpl. now apply tidy_ask.
Qed.

(** A turn at the terminal takes at least one event when there is one. *)
Lemma converse_consumes (stdin : list tty) : forall (m : mode) (n : nat),
  (length (unread (converse V editor m stdin n)) <= pred (length stdin))%nat.
Proof.
  induction stdin as [|ev rest IH]; intros m n.
  - destruct m; simpl; lia.
  - assert (Hrec : forall m' n',
              (length (unread (converse V editor m' rest n')) <= length rest)%nat).
    { intros m' n'. specialize (IH m' n'). lia. }
    destruct m as [|content]; destruct ev as [l| |]; cbn [length pred].
    + rewrite converse_line.
      destruct (negb (Py.truthy (Py.strip l))); [apply Hrec|].
      destruct (gui V && Py.mem (Py.lower (Py.strip l)) editor_words);
        [apply Hrec | simpl; lia].
    + simpl; lia.
    + simpl; lia.
    + rewrite converse_choice.
      destruct (String.eqb (Py.lower (Py.strip l)) "edit");
        [apply Hrec | simpl; lia].
    + cbn [converse]. apply Hrec.
    + simpl; lia.
Qed.

(** [get_user_input] leaves through [sys.exit] only where the script says
    so, and with no event left it does what the script does at the end of
    the input. *)
Lemma converse_exit (stdin : list tty) : forall (m : mode) (n : nat) (code : Z),
  result (converse V editor m stdin n) = Exited code -> on_stop V = Exited code.
Proof.
  induction stdin as [|ev rest IH]; intros m n code H.
  - destruct m; exact H.
  - destruct m as [|content]; destruct ev as [l| |].
    + rewrite converse_line in H.
      destruct (negb (Py.truthy (Py.strip l))); [now apply IH in H|].
      destruct (gui V && Py.mem (Py.lower (Py.strip l)) editor_words);
        [now apply IH in H | discriminate].
    + exact H.
    + exact H.
    + rewrite converse_choice in H.
      destruct (String.eqb (Py.lower (Py.strip l)) "edit");
        [now apply IH in H | discriminate].
    + cbn [converse] in H. now apply IH in H.
    + exact H.
Qed.

Lemma converse_at_end (m : mode) (n : nat) :
  result (converse V editor m [] n) = on_stop V.
Proof. destruct m; reflexivity. Qed.

End Loop.

(* ===================================================================== *)
(** * The session loop                                                    *)
(* ===================================================================== *)

Lemma plain_save_tidy (log_file stamp : string) (a : action)
    (user_input : string) (d : fs) :
  tidy (fst (save_session_log_plain log_file stamp a user_input d))
  /\ forallb is_print (fst (save_session_log_plain log_file stamp a user_input d))
     = true.
Proof.
  unfold save_session_log_plain.
  match goal with |- context [match ?b with Ok _ => _ | Raise _ => _ end] =>
    destruct b end; repeat split.
Qed.

(** The lines the logger of [new_flow/flow.py] can print: the warning of
    the reset, or none, and then nothing, the failure, or the failure and
    the notice of the backup. *)
Lemma backup_save_shape (log_file stamp : string) (a : action)
    (user_input : string) (d : fs) :
  exists shown tail : list output,
    fst (save_session_log_backup log_file stamp a user_input d) = shown ++ tail
    /\ (shown = [] \/
        shown = [Print "⚠️ JSON log file was corrupted, starting fresh"])
    /\ (tail = [] \/
        exists e : string,
          tail = [Print ("⚠️ Could not save log: " +:+ e)] \/
          tail = [Print ("⚠️ Could not save log: " +:+ e);
                  Print ("📝 Log saved to backup: " +:+ log_file +:+ ".backup")]).
Proof.
  unfold save_session_log_backup.
  assert (Hshown : forall p : list output * res json,
            p = (if path_exists d log_file then load_or_reset d log_file
                 else ([], Ok (JArr []))) ->
            fst p = [] \/
            fst p = [Print "⚠️ JSON log file was corrupted, starting fresh"]).
  { intros p ->. destruct (path_exists d log_file); [|now left].
    unfold load_or_reset.
    match goal with |- context [match ?b with Ok _ => _ | Raise _ => _ end] =>
      destruct b as [v|e] end; [now left|].
    destruct (is_value_error e); [now right | now left]. }
  destruct (if path_exists d log_file then load_or_reset d log_file
            else ([], Ok (JArr []))) as [shown loaded] eqn:E.
  specialize (Hshown (shown, loaded) eq_refl). simpl in Hshown.
  exists shown.
  match goal with |- context [match ?b with Ok _ => _ | Raise _ => _ end] =>
    destruct b as [d'|e] end.
  - exists []. simpl. rewrite app_nil_r. repeat split; [exact Hshown | now left].
  - destruct (write_json d (log_file +:+ ".backup")
                (JArr [log_entry stamp a user_input])); simpl.
    + eexists. rewrite <- app_assoc. split; [reflexivity|].
      split; [exact Hshown|]. right. exists (exn_str e). now right.
    + eexists. split; [reflexivity|].
      split; [exact Hshown|]. right. exists (exn_str e). now left.
Qed.

Lemma backup_save_tidy (log_file stamp : string) (a : action)
    (user_input : string) (d : fs) :
  tidy (fst (save_session_log_backup log_file stamp a user_input d))
  /\ forallb is_print (fst (save_session_log_backup log_file stamp a user_input d))
     = true.
Proof.
  destruct (backup_save_shape log_file stamp a user_input d)
    as (shown & tail & -> & Hs & Ht).
  destruct Hs as [-> | ->]; destruct Ht as [-> | [e [-> | ->]]];
    repeat split.
Qed.

Section MainLoop.

Variable V : variant.
Variable editor : nat -> string -> run.
Variables log_file stamp : string.

Hypothesis stop_not_help : forall t, on_stop V = Returned t -> fst (classify V t) <> Help.
Hypothesis stop_sound : forall t, on_stop V = Returned t -> Py.truthy (Py.strip t) = true.
Hypothesis exit_zero : forall code, on_stop V = Exited code -> code = 0.
Hypothesis menu_tidy : tidy (map Print (menu V)).
Hypothesis help_tidy : tidy (show_help V).
Hypothesis title_quiet : output_eqb (Print (title V)) (Print header) = false.
Hypothesis save_tidy : forall a u d,
  tidy (fst (save V log_file stamp a u d))
  /\ forallb is_print (fst (save V log_file stamp a u d)) = true.

Local Abbreviation settled := (settled V log_file stamp).

Lemma settled_before (o : list output) (d : fs) (r : finished) :
  tidy o -> settled d r -> settled d (before o r).
Proof.
  unfold settled, before. simpl. intros Ho H. destruct (how r).
  - destruct H as (pre & u & p & a & Hc & Ha & Hu & Hp & Ht & Hd).
    exists (o ++ pre), u, p, a. repeat split; try assumption.
    + rewrite Hp. now rewrite app_assoc.
    + apply tidy_app; [exact Ho | apply Ht].
    + apply tidy_app; [exact Ho | apply Ht].
  - destruct H as (Hc & Hd & Ht). repeat split; try assumption;
      apply tidy_app; assumption.
  - exact H.
Qed.

Lemma get_user_input_tidy (stdin : list tty) (n : nat) :
  tidy (shown (get_user_input V editor stdin n)).
Proof.
  unfold get_user_input. rewrite shown_say.
  apply tidy_app; [exact menu_tidy | apply converse_tidy].
Qed.

(** The loop stops, with more fuel than terminal events. *)
Lemma main_loop_settled (fuel : nat) : forall (stdin : list tty) (n : nat) (d : fs),
  (length stdin < fuel)%nat ->
  settled d (main_loop V fuel log_file stamp editor stdin n d).
Proof.
  induction fuel as [|fuel IH]; intros stdin n d Hfuel; [lia|].
  cbn [main_loop].
  pose proof (get_user_input_tidy stdin n) as Htidy.
  pose proof (get_user_input_sound V editor stop_sound stdin n) as Hsound.
  destruct (result (get_user_input V editor stdin n)) as [u|code] eqn:Er.
  - specialize (Hsound u eq_refl).
    destruct (classify V u) as [a processed] eqn:Ec.
    assert (Hstep : a <> Help ->
      settled d
        (let '(logged, d') := save V log_file stamp a processed d in
         mkFinished (shown (get_user_input V editor stdin n) ++ logged
                       ++ response_block (respond V a processed))
                    d' Done (unread (get_user_input V editor stdin n)))).
    { intros Ha. destruct (save V log_file stamp a processed d) as [logged d'] eqn:Es.
      unfold settled. simpl.
      exists (shown (get_user_input V editor stdin n)), u, processed, a.
      rewrite Es. simpl. repeat split; try assumption; apply Htidy. }
    destruct a; [apply Hstep; discriminate | | apply Hstep; discriminate].
    apply settled_before; [apply tidy_app; assumption|].
    apply IH. unfold get_user_input.
    change (unread (say (map Print (menu V)) (converse V editor Prompting stdin n)))
      with (unread (converse V editor Prompting stdin n)).
    destruct stdin as [|ev rest].
    + exfalso. unfold get_user_input in Er. rewrite result_say, converse_at_end in Er.
      apply (stop_not_help u Er). now rewrite Ec.
    + pose proof (converse_consumes V editor (ev :: rest) Prompting n) as Hc.
      cbn [length pred] in Hc, Hfuel. lia.
  - unfold settled. simpl. unfold get_user_input in Er. rewrite result_say in Er.
    apply converse_exit in Er. repeat split; [now apply exit_zero | apply Htidy..].
Qed.

Lemma banner_tidy (hms : string) : tidy (print_banner V hms).
Proof.
  split; [reflexivity|]. unfold print_banner.
  rewrite (count_quiet_r _ _ _ title_quiet). now quiet.
Qed.

Lemma main_settled (hms : string) (stdin : list tty) (d : fs) :
  settled d (main V log_file hms stamp editor stdin d).
Proof.
  unfold main. apply settled_before; [apply banner_tidy|].
  apply main_loop_settled. lia.
Qed.

Lemma main_one_response (hms : string) (stdin : list tty) (d : fs) :
  one_response V log_file hms stamp editor stdin d.
Proof.
  pose proof (main_settled hms stdin d) as H.
  unfold one_response, settled in *. cbv zeta.
  destruct (how (main V log_file hms stamp editor stdin d)).
  - destruct H as (pre & u & p & a & Hc & Ha & Hu & Hp & Ht & Hd).
    destruct (save_tidy a p d) as [Hst Hsp].
    exists pre, u, p, a. repeat split; try assumption; try apply Ht.
    + rewrite Hp, app_assoc.
      destruct (response_block_once (respond V a p)) as [Hs Hone].
      rewrite (count_blocks_app _ _ Hs), Hone.
      destruct (tidy_app _ _ Ht Hst) as [_ ->]. reflexivity.
    + rewrite forallb_app, Hsp. reflexivity.
  - destruct H as (Hc & Hd & Ht). repeat split; try assumption. apply Ht.
  - exact H.
Qed.

(** A turn classified as help shows the help and goes round again: the
    disk is handed on as it is, and nothing else is printed. *)
Lemma help_turn (fuel : nat) (stdin : list tty) (n : nat) (d : fs) (u : string) :
  result (get_user_input V editor stdin n) = Returned u ->
  fst (classify V u) = Help ->
  main_loop V (S fuel) log_file stamp editor stdin n d
  = before (shown (get_user_input V editor stdin n) ++ show_help V)
      (main_loop V fuel log_file stamp editor
         (unread (get_user_input V editor stdin n))
         (launches (get_user_input V editor stdin n)) d).
Proof.
  intros Hr Hc. cbn [main_loop]. rewrite Hr.
  destruct (classify V u) as [a p]. simpl in Hc. now subst a.
Qed.

End MainLoop.


(** A help turn followed by an instruction, in [flow.py]: one block, one
    log entry. *)
Example help_then_continue :
  let r := main FlowScript.script "session_log.json" "10:00:00" "T"
             (fun _ _ => LaunchError "") [Line "help"; Line "add a dark mode toggle"]
             (mkFs ∅ ∅ ∅) in
  how r = Done
  /\ count_blocks (printed r) = 1%nat
  /\ read_log (disk r) "session_log.json"
     = Some [log_entry "T" Continue "add a dark mode toggle"].
Proof. vm_compute. repeat split. Qed.

(* ===================================================================== *)
(** * More on the classifiers                                             *)
(* ===================================================================== *)

Lemma lower_char_idem (c : ascii) : Py.lower_char (Py.lower_char c) = Py.lower_char c.
Proof. destruct c as [[] [] [] [] [] [] [] []]; reflexivity. Qed.

Lemma lower_idem (s : string) : Py.lower (Py.lower s) = Py.lower s.
Proof.
  induction s as [|c s IH]; simpl; [reflexivity|].
  now rewrite lower_char_idem, IH.
Qed.

Lemma normalized_idem (s : string) : normalized (normalized s) = normalized s.
Proof.
  unfold normalized. now rewrite lower_strip, lower_idem, strip_idem.
Qed.

(** Each classifier looks at its input through [normalized] only. *)
Lemma process_input_normalized (s : string) :
  fst (Flow.process_input s)
  = (if flow_finish_rule s then Finish
     else if Py.contains "help" (normalized s) then Help else Continue)
  /\ fst (OldFlow.process_input s)
     = (if old_flow_finish_rule s then Finish
        else if Py.contains "help" (normalized s) then Help else Continue)
  /\ fst (NewFlow.process_input s)
     = (if Py.contains "help" (normalized s) then Help else Continue).
Proof.
  unfold Flow.process_input, OldFlow.process_input, NewFlow.process_input,
    flow_finish_rule, old_flow_finish_rule, normalized.
  repeat split.
  - destruct (existsb _ Flow.finish_keywords); [reflexivity|].
    now destruct (Py.contains "help" _).
  - destruct (existsb _ OldFlow.finish_keywords); [reflexivity|].
    destruct (Py.contains "help" _); [reflexivity|].
    now destruct (Py.mem _ OldFlow.gui_keywords).
  - now destruct (Py.contains "help" _).
Qed.

(** The second component of a classifier's result is its argument. *)
Lemma process_input_unchanged (s : string) :
  snd (Flow.process_input s) = s
  /\ snd (OldFlow.process_input s) = s
  /\ snd (NewFlow.process_input s) = s.
Proof.
  unfold Flow.process_input, OldFlow.process_input, NewFlow.process_input.
  cbv zeta. repeat split.
  - destruct (existsb _ _); [reflexivity|].
    now destruct (Py.contains _ _).
  - destruct (existsb _ _); [reflexivity|].
    destruct (Py.contains _ _); [reflexivity|].
    now destruct (Py.mem _ _).
  - now destruct (Py.contains _ _).
Qed.

(** X1.  Two inputs with the same normal form, such as inputs that differ
    in case or in the white space around them, get the same action from
    each of the three classifiers; the second component of the result is
    always the input as it was given. *)
Theorem classification_by_normal_form (s t : string)
    (Hsame : normalized s = normalized t) :
  fst (Flow.process_input s) = fst (Flow.process_input t)
  /\ fst (OldFlow.process_input s) = fst (OldFlow.process_input t)
  /\ fst (NewFlow.process_input s) = fst (NewFlow.process_input t)
  /\ snd (Flow.process_input s) = s
  /\ snd (OldFlow.process_input s) = s
  /\ snd (NewFlow.process_input s) = s.
Proof.
  destruct (process_input_unchanged s) as (S1 & S2 & S3).
  destruct (process_input_normalized s) as (F1 & O1 & N1).
  destruct (process_input_normalized t) as (F2 & O2 & N2).
  unfold flow_finish_rule, old_flow_finish_rule in *.
  rewrite Hsame in F1, O1, N1.
  repeat split; congruence.
Qed.

Lemma classification_by_normal_form_witness :
  fst (OldFlow.process_input "  I am DONE now ")
  = fst (OldFlow.process_input "i am done now").
Proof.
  exact (proj1 (proj2 (classification_by_normal_form
                         "  I am DONE now " "i am done now" eq_refl))).
Defined.

Lemma old_flow_finish_rule_spec (s : string) :
  old_flow_finish_rule s = true
  <-> whole_word "done" (normalized s) \/ whole_word "finish" (normalized s).
Proof.
  unfold old_flow_finish_rule, OldFlow.finish_keywords. simpl existsb.
  rewrite orb_false_r, orb_true_iff.
  rewrite (search_word_spec "done"), (search_word_spec "finish");
    [reflexivity | split; reflexivity | split; reflexivity].
Qed.

Lemma flow_finish_rule_spec (s : string) :
  flow_finish_rule s = true
  <-> exists kw, In kw Flow.finish_keywords /\ occurs kw (normalized s).
Proof.
  unfold flow_finish_rule. rewrite existsb_exists.
  split; intros (kw & Hin & H); exists kw; split; try assumption;
    now apply contains_occurs.
Qed.


(** X3.  The classifier of [flow.py] decides by substrings of the normal
    form: finish exactly when one of its seven keywords occurs in it, help
    exactly when none does and "help" occurs, continue otherwise. *)
Theorem flow_decision_table (s : string) :
  let K := exists kw, In kw Flow.finish_keywords /\ occurs kw (normalized s) in
  (fst (Flow.process_input s) = Finish <-> K)
  /\ (fst (Flow.process_input s) = Help <-> ~ K /\ occurs "help" (normalized s))
  /\ (fst (Flow.process_input s) = Continue
      <-> ~ K /\ ~ occurs "help" (normalized s)).
Proof.
  intros K. destruct (process_input_normalized s) as (-> & _ & _).
  pose proof (flow_finish_rule_spec s) as HK. fold K in HK.
  pose proof (contains_occurs "help" (normalized s)) as HH.
  destruct (flow_finish_rule s).
  - assert (K) by now apply HK. repeat split; try discriminate; tauto.
  - assert (~ K) by (intros Hk; apply HK in Hk; discriminate).
    destruct (Py.contains "help" (normalized s)).
    + assert (occurs "help" (normalized s)) by now apply HH.
      repeat split; try discriminate; tauto.
    + assert (~ occurs "help" (normalized s))
        by (intros Ho; apply HH in Ho; discriminate).
      repeat split; try discriminate; tauto.
Qed.

(** X4.  The three classifiers are ordered: what [old_flow/flow.py] calls
    finish is finish in [flow.py] too (a whole word is a substring, and its
    two keywords are among the seven); what [flow.py] calls help is help in
    [old_flow/flow.py], and what that one calls help is help in
    [new_flow/flow.py]; what [new_flow/flow.py] calls continue is never
    help in the other two. *)
Theorem classifiers_ordered (s : string) :
  (fst (OldFlow.process_input s) = Finish -> fst (Flow.process_input s) = Finish)
  /\ (fst (Flow.process_input s) = Help -> fst (OldFlow.process_input s) = Help)
  /\ (fst (OldFlow.process_input s) = Help -> fst (NewFlow.process_input s) = Help)
  /\ (fst (NewFlow.process_input s) = Continue ->
      fst (Flow.process_input s) <> Help /\ fst (OldFlow.process_input s) <> Help).
Proof.
  assert (Hnarrow : old_flow_finish_rule s = true -> flow_finish_rule s = true).
  { intros H. apply old_flow_finish_rule_spec in H. apply flow_finish_rule_spec.
    destruct H as [H | H]; [exists "done" | exists "finish"];
      (split; [simpl; tauto | now apply whole_word_occurs]). }
  destruct (process_input_normalized s) as (-> & -> & ->).
  destruct (old_flow_finish_rule s) eqn:Eo.
  - rewrite (Hnarrow eq_refl).
    destruct (Py.contains "help" (normalized s));
      repeat split; try discriminate; try reflexivity.
  - destruct (flow_finish_rule s); destruct (Py.contains "help" (normalized s));
      repeat split; try discriminate; try reflexivity.
Qed.

Lemma classifiers_ordered_witness :
  fst (Flow.process_input "well, FINISH it") = Finish.
Proof.
  exact (proj1 (classifiers_ordered "well, FINISH it") eq_refl).
Defined.

(* ===================================================================== *)
(** * More on the loggers                                                 *)
(* ===================================================================== *)

Lemma write_json_cases (d : fs) (path : string) (v : json) :
  ((path ∉ no_write d) /\ write_json d path v = Ok (written d path v))
  \/ ((path ∈ no_write d) /\ write_json d path v = Raise (denied path)).
Proof.
  destruct (decide (path ∈ no_write d)) as [H | H].
  - right. split; [exact H | now apply write_json_denied].
  - left. split; [exact H | now apply write_json_ok].
Qed.

Lemma read_file_denied (d : fs) (path : string) :
  path ∈ no_read d -> read_file d path = Raise (denied path).
Proof. intros H. unfold read_file. now rewrite bool_decide_eq_true_2. Qed.

Lemma appendable_unique (d : fs) (log_file : string) (xs ys : list json) :
  appendable d log_file xs -> appendable d log_file ys -> xs = ys.
Proof.
  intros (_ & [[Hn ->] | [_ Hx]]) (_ & [[Hm ->] | [_ Hy]]); try reflexivity.
  - apply read_log_spec in Hy. congruence.
  - apply read_log_spec in Hx. congruence.
  - congruence.
Qed.

(** The logger of [flow.py] and [old_flow/flow.py], case by case. *)
Lemma plain_cases (log_file stamp : string) (a : action) (user_input : string)
    (d : fs) :
  (exists items, appendable d log_file items
     /\ save_session_log_plain log_file stamp a user_input d
        = ([], written d log_file (JArr (items ++ [log_entry stamp a user_input]))))
  \/ ((forall items, ~ appendable d log_file items)
      /\ exists e : exn,
           save_session_log_plain log_file stamp a user_input d
           = ([Print ("⚠️  Could not save log: " +:+ exn_str e)], d)).
Proof.
  unfold save_session_log_plain.
  destruct (files d !! log_file) as [c|] eqn:Hf.
  - rewrite (path_exists_true _ _ _ Hf).
    destruct (decide (log_file ∈ no_read d)) as [Hr | Hr].
    { rewrite (read_file_denied _ _ Hr). right. split; [|eexists; reflexivity].
      intros items (_ & [[Hn _] | [Hn _]]); [congruence | contradiction]. }
    rewrite (read_file_ok _ _ _ Hr Hf).
    destruct c as [raw err | v]; cbn [bind json_load].
    { right. split; [|eexists; reflexivity].
      intros items (_ & [[Hn _] | [_ Hn]]); [congruence|].
      apply read_log_spec in Hn. congruence. }
    destruct v as [ | b | n | l | t | items | fields ];
      try (right; split; [|eexists; reflexivity];
           intros items' (_ & [[Hn _] | [_ Hn]]); [congruence|];
           apply read_log_spec in Hn; congruence).
    cbn [append bind].
    destruct (write_json_cases d log_file
                (JArr (items ++ [log_entry stamp a user_input])))
      as [[Hw ->] | [Hw ->]].
    + left. exists items. split; [|reflexivity].
      split; [exact Hw|]. right. split; [exact Hr|]. now apply read_log_spec.
    + right. split; [|eexists; reflexivity].
      intros items' (Hw' & _). contradiction.
  - rewrite (path_exists_false _ _ Hf). cbn [append bind].
    destruct (write_json_cases d log_file
                (JArr ([] ++ [log_entry stamp a user_input])))
      as [[Hw ->] | [Hw ->]].
    + left. exists []. split; [|reflexivity].
      split; [exact Hw|]. now left.
    + right. split; [|eexists; reflexivity].
      intros items' (Hw' & _). contradiction.
Qed.


(** The logger of [new_flow/flow.py], case by case: the log is rewritten
    (after a reset, with its warning, when its text was broken or blank),
    or the entry goes to the backup, or nothing is written. *)
Lemma backup_cases (log_file stamp : string) (a : action) (user_input : string)
    (d : fs) :
  let entry := log_entry stamp a user_input in
  let backup_file := log_file +:+ ".backup" in
  let r := save_session_log_backup log_file stamp a user_input d in
  exists shown : list output,
    (shown = [] \/ shown = [Print "⚠️ JSON log file was corrupted, starting fresh"])
    /\ ((exists items,
           (log_file ∉ no_write d)
           /\ r = (shown, written d log_file (JArr (items ++ [entry])))
           /\ (appendable d log_file items
               \/ (items = [] /\ (log_file ∉ no_read d)
                   /\ exists raw err,
                        files d !! log_file = Some (Unparsable raw err))))
        \/ (exists e : exn,
              (forall items, ~ appendable d log_file items)
              /\ (backup_file ∉ no_write d)
              /\ r = (shown ++ [Print ("⚠️ Could not save log: " +:+ exn_str e);
                                Print ("📝 Log saved to backup: " +:+ backup_file)],
                      written d backup_file (JArr [entry])))
        \/ (exists e : exn,
              (forall items, ~ appendable d log_file items)
              /\ (backup_file ∈ no_write d)
              /\ r = (shown ++ [Print ("⚠️ Could not save log: " +:+ exn_str e)], d))).
Proof.
  intros entry backup_file r. subst r. unfold save_session_log_backup.
  fold entry. fold backup_file.
  assert (Hfail : forall (shown : list output) (e : exn),
    (forall items, ~ appendable d log_file items) ->
    (exists e0 : exn,
       (forall items, ~ appendable d log_file items)
       /\ (backup_file ∉ no_write d)
       /\ match write_json d backup_file (JArr [entry]) with
          | Ok d' =>
              ((shown ++ [Print ("⚠️ Could not save log: " +:+ exn_str e)])
                 ++ [Print ("📝 Log saved to backup: " +:+ backup_file)], d')
          | Raise _ =>
              (shown ++ [Print ("⚠️ Could not save log: " +:+ exn_str e)], d)
          end
          = (shown ++ [Print ("⚠️ Could not save log: " +:+ exn_str e0);
                       Print ("📝 Log saved to backup: " +:+ backup_file)],
             written d backup_file (JArr [entry])))
    \/ (exists e0 : exn,
          (forall items, ~ appendable d log_file items)
          /\ (backup_file ∈ no_write d)
          /\ match write_json d backup_file (JArr [entry]) with
             | Ok d' =>
                 ((shown ++ [Print ("⚠️ Could not save log: " +:+ exn_str e)])
                    ++ [Print ("📝 Log saved to backup: " +:+ backup_file)], d')
             | Raise _ =>
                 (shown ++ [Print ("⚠️ Could not save log: " +:+ exn_str e)], d)
             end
             = (shown ++ [Print ("⚠️ Could not save log: " +:+ exn_str e0)], d))).
  { intros shown e Hn.
    destruct (write_json_cases d backup_file (JArr [entry]))
      as [[Hb ->] | [Hb ->]]; [left | right]; exists e;
      (split; [exact Hn | split; [exact Hb|]]).
    - now rewrite <- app_assoc.
    - reflexivity. }
  destruct (files d !! log_file) as [c|] eqn:Hf.
  - rewrite (path_exists_true _ _ _ Hf). unfold load_or_reset.
    destruct (decide (log_file ∈ no_read d)) as [Hr | Hr].
    { rewrite (read_file_denied _ _ Hr). cbn [bind denied is_value_error].
      exists []. split; [now left|]. right. apply Hfail.
      intros items (_ & [[Hn _] | [Hn _]]); [congruence | contradiction]. }
    rewrite (read_file_ok _ _ _ Hr Hf). cbn [bind].
    destruct c as [raw err | v].
    + (* text that does not parse *)
      destruct (Py.truthy (Py.strip raw)); cbn [bind is_value_error append].
      * exists [Print "⚠️ JSON log file was corrupted, starting fresh"].
        split; [now right|].
        destruct (write_json_cases d log_file (JArr ([] ++ [entry])))
          as [[Hw ->] | [Hw ->]].
        -- left. exists []. split; [exact Hw|]. split; [reflexivity|].
           right. split; [reflexivity|]. split; [exact Hr|]. now exists raw, err.
        -- right. apply Hfail. intros items (Hw' & _). contradiction.
      * exists []. split; [now left|].
        destruct (write_json_cases d log_file (JArr ([] ++ [entry])))
          as [[Hw ->] | [Hw ->]].
        -- left. exists []. split; [exact Hw|]. split; [reflexivity|].
           right. split; [reflexivity|]. split; [exact Hr|]. now exists raw, err.
        -- right. apply Hfail. intros items (Hw' & _). contradiction.
    + exists []. split; [now left|].
      destruct v as [ | b | n | l | t | items | fields ];
        try (right; apply Hfail;
             intros items' (_ & [[Hn _] | [_ Hn]]); [congruence|];
             apply read_log_spec in Hn; congruence).
      cbn [bind append].
      destruct (write_json_cases d log_file (JArr (items ++ [entry])))
        as [[Hw ->] | [Hw ->]].
      * left. exists items. split; [exact Hw|]. split; [reflexivity|].
        left. split; [exact Hw|]. right. split; [exact Hr|].
        now apply read_log_spec.
      * right. apply Hfail. intros items' (Hw' & _). contradiction.
  - rewrite (path_exists_false _ _ Hf). cbn [bind append].
    exists []. split; [now left|].
    destruct (write_json_cases d log_file (JArr ([] ++ [entry])))
      as [[Hw ->] | [Hw ->]].
    + left. exists []. split; [exact Hw|]. split; [reflexivity|].
      left. split; [exact Hw|]. now left.
    + right. apply Hfail. intros items' (Hw' & _). contradiction.
Qed.

Lemma same_but_refl (paths : list string) (d : fs) : same_but paths d d.
Proof. now repeat split. Qed.

Lemma same_but_written (paths : list string) (d : fs) (path : string) (v : json) :
  In path paths -> same_but paths d (written d path v).
Proof.
  intros Hin. repeat split. intros p Hp. simpl.
  apply lookup_insert_ne. intros ->. contradiction.
Qed.

(** What is on the disk after the logger of [flow.py] ran. *)
Lemma plain_disk (log_file stamp : string) (a : action) (user_input : string)
    (d : fs) :
  let d' := snd (save_session_log_plain log_file stamp a user_input d) in
  d' = d
  \/ exists items, appendable d log_file items
       /\ d' = written d log_file (JArr (items ++ [log_entry stamp a user_input])).
Proof.
  destruct (plain_cases log_file stamp a user_input d)
    as [(items & Ha & ->) | (_ & e & ->)]; [right | left]; simpl.
  - now exists items.
  - reflexivity.
Qed.

(** What is on the disk after the logger of [new_flow/flow.py] ran. *)
Lemma backup_disk (log_file stamp : string) (a : action) (user_input : string)
    (d : fs) :
  let entry := log_entry stamp a user_input in
  let d' := snd (save_session_log_backup log_file stamp a user_input d) in
  (exists items,
     d' = written d log_file (JArr (items ++ [entry]))
     /\ (appendable d log_file items
         \/ (items = [] /\ exists raw err,
               files d !! log_file = Some (Unparsable raw err))))
  \/ ((forall items, ~ appendable d log_file items)
      /\ (log_file +:+ ".backup" ∉ no_write d)
      /\ d' = written d (log_file +:+ ".backup") (JArr [entry]))
  \/ ((forall items, ~ appendable d log_file items)
      /\ (log_file +:+ ".backup" ∈ no_write d)
      /\ d' = d).
Proof.
  intros entry d'. subst d'.
  destruct (backup_cases log_file stamp a user_input d)
    as (shown & _ & [(items & Hw & -> & H) | [(e & Hn & Hb & ->) | (e & Hn & Hb & ->)]]).
  - left. exists items. split; [reflexivity|].
    destruct H as [H | (-> & _ & H)]; [now left | now right].
  - right. left. now repeat split.
  - right. right. now repeat split.
Qed.

(** X6.  Neither logger touches anything but its own files: after the
    logger of [flow.py] and [old_flow/flow.py] every file other than the log
    is as it was, after the logger of [new_flow/flow.py] every file other
    than the log and its [.backup] sibling is; no run changes what can be
    read or written. *)
Theorem loggers_touch_only_their_files (log_file stamp : string) (a : action)
    (user_input : string) (d : fs) :
  same_but [log_file] d
    (snd (save_session_log_plain log_file stamp a user_input d))
  /\ same_but [log_file; log_file +:+ ".backup"] d
       (snd (save_session_log_backup log_file stamp a user_input d)).
Proof.
  split.
  - destruct (plain_disk log_file stamp a user_input d) as [-> | (items & _ & ->)].
    + apply same_but_refl.
    + apply same_but_written. now left.
  - destruct (backup_disk log_file stamp a user_input d)
      as [(items & -> & _) | [(_ & _ & ->) | (_ & _ & ->)]].
    + apply same_but_written. now left.
    + apply same_but_written. right. now left.
    + apply same_but_refl.
Qed.

Lemma read_log_written (d : fs) (path : string) (items : list json) :
  read_log (written d path (JArr items)) path = Some items.
Proof. apply read_log_spec. simpl. apply lookup_insert_eq. Qed.

Lemma read_log_written_ne (d : fs) (path other : string) (v : json) :
  other <> path -> read_log (written d other v) path = read_log d path.
Proof.
  intros Hne. unfold read_log. simpl. now rewrite lookup_insert_ne.
Qed.

Lemma appendable_read (d : fs) (log_file : string) (items old : list json) :
  appendable d log_file items -> read_log d log_file = Some old -> items = old.
Proof.
  intros (_ & [[Hn _] | [_ Hi]]) Ho; [|congruence].
  apply read_log_spec in Ho. congruence.
Qed.



(** X8.  With a writable backup file the logger of [new_flow/flow.py] never
    loses an entry: after it ran, the entry is the last one of the log or
    the only one of the backup file. *)
Theorem entry_saved_somewhere (log_file stamp : string) (a : action)
    (user_input : string) (d : fs)
    (Hbackup : log_file +:+ ".backup" ∉ no_write d) :
  let entry := log_entry stamp a user_input in
  let d' := snd (save_session_log_backup log_file stamp a user_input d) in
  (exists items, read_log d' log_file = Some (items ++ [entry]))
  \/ read_log d' (log_file +:+ ".backup") = Some [entry].
Proof.
  intros entry d'. subst d'.
  destruct (backup_disk log_file stamp a user_input d)
    as [(xs & -> & _) | [(_ & _ & ->) | (_ & Hb & _)]].
  - left. exists xs. apply read_log_written.
  - right. apply read_log_written.
  - contradiction.
Qed.

Lemma read_only_locked : "session_log.json" ∈ no_write read_only_disk.
Proof. unfold read_only_disk. cbn [no_write]. now apply elem_of_singleton_2. Qed.

Lemma read_only_backup_free :
  "session_log.json" +:+ ".backup" ∉ no_write read_only_disk.
Proof.
  unfold read_only_disk. cbn [no_write].
  apply not_elem_of_singleton_2. discriminate.
Qed.

Lemma entry_saved_somewhere_witness :
  (exists items,
     read_log (snd (save_session_log_backup "session_log.json" "t" Continue "go"
                      read_only_disk)) "session_log.json"
     = Some (items ++ [log_entry "t" Continue "go"]))
  \/ read_log (snd (save_session_log_backup "session_log.json" "t" Continue "go"
                      read_only_disk)) ("session_log.json" +:+ ".backup")
     = Some [log_entry "t" Continue "go"].
Proof.
  exact (entry_saved_somewhere "session_log.json" "t" Continue "go"
           read_only_disk read_only_backup_free).
Defined.

Lemma backup_when_locked (log_file stamp : string) (a : action)
    (user_input : string) (d : fs) :
  log_file ∈ no_write d -> (log_file +:+ ".backup" ∉ no_write d) ->
  snd (save_session_log_backup log_file stamp a user_input d)
  = written d (log_file +:+ ".backup") (JArr [log_entry stamp a user_input]).
Proof.
  intros Hw Hb.
  destruct (backup_disk log_file stamp a user_input d)
    as [(xs & _ & [(Hw' & _) | (-> & raw & err & Hf)]) | [(_ & _ & ->) | (_ & Hb' & _)]];
    try contradiction; try reflexivity.
  destruct (backup_cases log_file stamp a user_input d)
    as (shown & _ & [(items & Hw' & _) | [(e & Hn & _ & ->) | (e & _ & Hb' & _)]]);
    try contradiction. reflexivity.
Qed.

Lemma save_all_app
    (save : string -> string -> action -> string -> fs -> list output * fs)
    (log_file : string) (xs ys : list (string * action * string)) (d : fs) :
  save_all save log_file (xs ++ ys) d
  = save_all save log_file ys (save_all save log_file xs d).
Proof. unfold save_all. apply fold_left_app. Qed.

(** While the log cannot be written, the disk after any run of the logger
    of [new_flow/flow.py] has its log and permissions as before. *)
Lemma locked_run (log_file : string) (es : list (string * action * string)) :
  forall d : fs,
  log_file ∈ no_write d -> (log_file +:+ ".backup" ∉ no_write d) ->
  let d' := save_all save_session_log_backup log_file es d in
  no_write d' = no_write d /\ files d' !! log_file = files d !! log_file.
Proof.
  induction es as [|e es IH]; intros d Hw Hb; [now split|].
  change (save_all save_session_log_backup log_file (e :: es) d)
    with (save_all save_session_log_backup log_file es
            (snd (save_session_log_backup log_file (fst (fst e)) (snd (fst e))
                    (snd e) d))).
  rewrite (backup_when_locked _ _ _ _ _ Hw Hb).
  destruct (IH (written d (log_file +:+ ".backup")
                  (JArr [log_entry (fst (fst e)) (snd (fst e)) (snd e)])) Hw Hb)
    as (H1 & H2).
  cbv zeta. rewrite H1, H2. split; [reflexivity|].
  simpl. apply lookup_insert_ne. apply backup_is_sibling.
Qed.

(** X9.  The backup file is overwritten, not extended: while the log
    cannot be written and the backup file can, after any run of failed
    appends the backup file holds the entry of the last one only, and the
    log is as it was. *)
Theorem backup_keeps_last_only (log_file : string)
    (es : list (string * action * string)) (e : string * action * string)
    (d : fs)
    (Hlocked : log_file ∈ no_write d)
    (Hbackup : log_file +:+ ".backup" ∉ no_write d) :
  let d' := save_all save_session_log_backup log_file (es ++ [e]) d in
  read_log d' (log_file +:+ ".backup") = Some [entry_of e]
  /\ files d' !! log_file = files d !! log_file.
Proof.
  cbv zeta. rewrite save_all_app.
  destruct (locked_run log_file es d Hlocked Hbackup) as (H1 & H2).
  cbv zeta in H1, H2.
  set (d1 := save_all save_session_log_backup log_file es d) in *.
  change (save_all save_session_log_backup log_file [e] d1)
    with (snd (save_session_log_backup log_file (fst (fst e)) (snd (fst e))
                 (snd e) d1)).
  rewrite backup_when_locked; [| now rewrite H1 | now rewrite H1].
  split.
  - apply read_log_written.
  - rewrite <- H2. simpl. apply lookup_insert_ne. apply backup_is_sibling.
Qed.

Lemma backup_keeps_last_only_witness :
  read_log (save_all save_session_log_backup "session_log.json"
              ([("t1", Continue, "one")] ++ [("t2", Continue, "two")])
              read_only_disk)
           ("session_log.json" +:+ ".backup")
  = Some [entry_of ("t2", Continue, "two")].
Proof.
  refine (proj1 (backup_keeps_last_only "session_log.json"
                   [("t1", Continue, "one")] ("t2", Continue, "two")
                   read_only_disk _ _)).
  - exact read_only_locked.
  - exact read_only_backup_free.
Defined.

(* ===================================================================== *)
(** * The response quotes the instruction                                 *)
(* ===================================================================== *)

Lemma append_nil_r (s : string) : s +:+ "" = s.
Proof. induction s as [|c s IH]; simpl; [reflexivity | now rewrite IH]. Qed.

Lemma occurs_refl (s : string) : occurs s s.
Proof. exists "", "". simpl. now rewrite append_nil_r. Qed.

Lemma occurs_app_l (sub a b : string) : occurs sub a -> occurs sub (a +:+ b).
Proof.
  intros (p & q & ->). exists p, (q +:+ b). now rewrite !app_assoc_s.
Qed.

Lemma occurs_app_r (sub a b : string) : occurs sub b -> occurs sub (a +:+ b).
Proof.
  intros (p & q & ->). exists (a +:+ p), q. now rewrite !app_assoc_s.
Qed.

Lemma occurs_trans (a b c : string) : occurs a b -> occurs b c -> occurs a c.
Proof.
  intros (p & q & ->) (p' & q' & ->).
  exists (p' +:+ p), (q +:+ q'). now rewrite !app_assoc_s.
Qed.

(** A line of a triple-quoted text stands in it between two newlines,
    the first line apart. *)
Lemma line_in_unlines (line : string) (l : list string) :
  In line l -> occurs (line +:+ nl) (unlines l).
Proof.
  induction l as [|x l IH]; intros Hin; [destruct Hin|].
  change (unlines (x :: l)) with (x +:+ nl +:+ unlines l).
  destruct Hin as [-> | Hin].
  - exists "", (unlines l). simpl. now rewrite app_assoc_s.
  - apply occurs_app_r, occurs_app_r. now apply IH.
Qed.

Lemma later_line_in_unlines (line x : string) (l : list string) :
  In line l -> occurs (nl +:+ line +:+ nl) (unlines (x :: l)).
Proof.
  revert x. induction l as [|y l IH]; intros x Hin; [destruct Hin|].
  change (unlines (x :: y :: l)) with (x +:+ nl +:+ unlines (y :: l)).
  destruct Hin as [-> | Hin].
  - exists x, (unlines l).
    change (unlines (line :: l)) with (line +:+ nl +:+ unlines l).
    now rewrite !app_assoc_s.
  - apply occurs_app_r, occurs_app_r. now apply IH.
Qed.

(** X10.  The response hands the instruction on as it is, with no
    escaping: in [flow.py] and [old_flow/flow.py] the finish response has a
    line made of [Final instruction: ] and the instruction between double
    quotes, and the continue response has the instruction quoted on one
    line and alone on another; in [new_flow/flow.py] the continue response
    has the instruction alone on a line and, on a later line, [python ]
    followed by the path of the script. *)
Theorem response_quotes_instruction (path user_input : string) :
  let quoted := dq +:+ user_input +:+ dq in
  occurs (nl +:+ "Final instruction: " +:+ quoted +:+ nl)
         (generate_response_plain Finish user_input)
  /\ occurs (nl +:+ "User wants to continue with: " +:+ quoted +:+ nl)
            (generate_response_plain Continue user_input)
  /\ occurs (nl +:+ user_input +:+ nl) (generate_response_plain Continue user_input)
  /\ occurs (nl +:+ user_input +:+ nl)
            (generate_response_continuous path Continue user_input)
  /\ occurs (nl +:+ "python " +:+ path +:+ nl)
            (generate_response_continuous path Continue user_input).
Proof.
  cbv zeta. unfold generate_response_plain, generate_response_continuous.
  repeat split.
  - rewrite <- (app_assoc_s "Final instruction: ").
    apply later_line_in_unlines. simpl. tauto.
  - rewrite <- (app_assoc_s "User wants to continue with: ").
    apply later_line_in_unlines. simpl. tauto.
  - apply later_line_in_unlines. simpl. tauto.
  - apply later_line_in_unlines. simpl. tauto.
  - rewrite <- (app_assoc_s "python ").
    apply later_line_in_unlines. simpl. tauto.
Qed.

(* ===================================================================== *)
(** * The marker protocol, end to end                                     *)
(* ===================================================================== *)

Lemma len_app (a b : string) : Py.len (a +:+ b) = Py.len a + Py.len b.
Proof. unfold Py.len. rewrite length_app_s. lia. Qed.

Lemma len_nonneg (s : string) : 0 <= Py.len s.
Proof. unfold Py.len. lia. Qed.

Lemma one_line_head (c : ascii) (s : string) :
  one_line (String c s) -> Ascii.eqb "010"%char c = false /\ one_line s.
Proof.
  unfold one_line. intros H.
  change (Py.contains nl (String c s))
    with ((if Ascii.eqb "010"%char c then true else false) || Py.contains nl s) in H.
  apply orb_false_iff in H as [H1 H2].
  split; [|exact H2]. now destruct (Ascii.eqb "010"%char c).
Qed.

Lemma startswith_nil (sub : string) :
  Py.startswith sub "" = true -> sub = "".
Proof. destruct sub; [reflexivity | discriminate]. Qed.

(** A string with no newline begins [a], a newline and [b] only if it
    begins [a]. *)
Lemma startswith_sep (sub : string) : forall a b : string,
  one_line sub ->
  Py.startswith sub (a +:+ nl +:+ b) = Py.startswith sub a.
Proof.
  induction sub as [|c sub IH]; intros a b H; [now destruct a|].
  apply one_line_head in H as [Hc Hs].
  destruct a as [|x a].
  - change (Py.startswith (String c sub) ("" +:+ nl +:+ b))
      with (if Ascii.eqb c "010"%char then Py.startswith sub b else false).
    rewrite Ascii.eqb_sym. now rewrite Hc.
  - change (Py.startswith (String c sub) (String x a +:+ nl +:+ b))
      with (if Ascii.eqb c x then Py.startswith sub (a +:+ nl +:+ b) else false).
    change (Py.startswith (String c sub) (String x a))
      with (if Ascii.eqb c x then Py.startswith sub a else false).
    destruct (Ascii.eqb c x); [now apply IH | reflexivity].
Qed.

Lemma contains_nil (sub : string) : Py.contains sub "" = Py.startswith sub "".
Proof. simpl. apply orb_false_r. Qed.

(** It occurs in [a], a newline and [b] only if it occurs in [a] or in
    [b]. *)
Lemma contains_sep (sub a b : string) :
  one_line sub ->
  Py.contains sub (a +:+ nl +:+ b) = Py.contains sub a || Py.contains sub b.
Proof.
  intros H. induction a as [|x a IH].
  - change (Py.contains sub ("" +:+ nl +:+ b))
      with (Py.startswith sub ("" +:+ nl +:+ b) || Py.contains sub b).
    rewrite (startswith_sep sub "" b H). now rewrite contains_nil.
  - change (Py.contains sub (String x a +:+ nl +:+ b))
      with (Py.startswith sub (String x a +:+ nl +:+ b)
            || Py.contains sub (a +:+ nl +:+ b)).
    rewrite (startswith_sep sub (String x a) b H), IH.
    change (Py.contains sub (String x a))
      with (Py.startswith sub (String x a) || Py.contains sub a).
    now rewrite orb_assoc.
Qed.

Lemma contains_false_startswith (sub s : string) :
  Py.contains sub s = false -> Py.startswith sub s = false.
Proof.
  destruct s; simpl; intros H; apply orb_false_iff in H; tauto.
Qed.

Lemma contains_false_tail (sub : string) (c : ascii) (s : string) :
  Py.contains sub (String c s) = false -> Py.contains sub s = false.
Proof. simpl. intros H. apply orb_false_iff in H. tauto. Qed.

Lemma find_head (sub s : string) :
  Py.startswith sub s = true -> Py.find sub s = 0.
Proof. intros H. destruct s; simpl in *; now rewrite H. Qed.

(** [find] past a part that does not hold the string and a newline. *)
Lemma find_sep (sub a b : string) :
  one_line sub -> Py.contains sub a = false -> 0 <= Py.find sub b ->
  Py.find sub (a +:+ nl +:+ b) = Py.len a + 1 + Py.find sub b.
Proof.
  intros H Ha Hb. induction a as [|x a IH].
  - change (Py.find sub ("" +:+ nl +:+ b))
      with (if Py.startswith sub ("" +:+ nl +:+ b) then 0
            else let i := Py.find sub b in if i <? 0 then -1 else i + 1).
    rewrite (startswith_sep sub "" b H), (contains_false_startswith _ _ Ha).
    cbv zeta. destruct (Z.ltb_spec (Py.find sub b) 0); [lia|].
    unfold Py.len. simpl. lia.
  - change (Py.find sub (String x a +:+ nl +:+ b))
      with (if Py.startswith sub (String x a +:+ nl +:+ b) then 0
            else let i := Py.find sub (a +:+ nl +:+ b) in
                 if i <? 0 then -1 else i + 1).
    rewrite (startswith_sep sub (String x a) b H),
      (contains_false_startswith _ _ Ha).
    rewrite (IH (contains_false_tail _ _ _ Ha)). cbv zeta.
    pose proof (len_nonneg a).
    destruct (Z.ltb_spec (Py.len a + 1 + Py.find sub b) 0); [lia|].
    unfold Py.len in *. simpl String.length. lia.
Qed.

Lemma substring_skip (a s : string) (n : nat) :
  String.substring (String.length a) n (a +:+ s) = String.substring 0 n s.
Proof. induction a as [|c a IH]; simpl; [reflexivity | exact IH]. Qed.

Lemma substring_prefix (b c : string) :
  String.substring 0 (String.length b) (b +:+ c) = b.
Proof.
  induction b as [|x b IH]; simpl; [now destruct c | now rewrite IH].
Qed.

(** The slice between the end of [a] and the end of [b] in [a b c]. *)
Lemma slice_mid (a b c : string) :
  Py.slice (a +:+ b +:+ c) (Py.len a) (Py.len a + Py.len b) = b.
Proof.
  unfold Py.slice, Py.clamp. rewrite !len_app.
  pose proof (len_nonneg a). pose proof (len_nonneg b). pose proof (len_nonneg c).
  destruct (Z.ltb_spec (Py.len a) 0); [lia|].
  destruct (Z.ltb_spec (Py.len a + Py.len b) 0); [lia|].
  rewrite !Z.min_l by lia.
  replace (Py.len a + Py.len b - Py.len a) with (Py.len b) by lia.
  unfold Py.len. rewrite !Nat2Z.id.
  now rewrite substring_skip, substring_prefix.
Qed.

Lemma rstrip_app_blank (x w : string) :
  Py.rstrip w = "" -> Py.rstrip (x +:+ w) = Py.rstrip x.
Proof.
  intros H. induction x as [|c x IH]; simpl; [exact H | now rewrite IH].
Qed.

Lemma rstrip_ends_solid (s : string) : ends_solid s -> Py.rstrip s = s.
Proof.
  induction s as [|c s IH]; intros (b & Hf & Hb); [discriminate|].
  destruct s as [|c' s].
  - simpl in Hf. injection Hf as ->. simpl. now rewrite Hb.
  - assert (Hs : ends_solid (String c' s)) by (now exists b).
    specialize (IH Hs).
    change (Py.rstrip (String c (String c' s)))
      with (match Py.rstrip (String c' s) with
            | EmptyString =>
                if Py.isspace c then EmptyString else String c EmptyString
            | r' => String c r'
            end).
    now rewrite IH.
Qed.

Lemma final_app (x s : string) : forall prev : option ascii,
  s <> "" -> Re.final prev (x +:+ s) = Re.final None s.
Proof.
  induction x as [|c x IH]; intros prev Hne.
  - now apply final_nonempty.
  - simpl. now apply IH.
Qed.

Lemma ends_solid_app (x s : string) : ends_solid s -> ends_solid (x +:+ s).
Proof.
  intros (b & Hf & Hb). exists b. split; [|exact Hb].
  rewrite final_app; [exact Hf|]. intros ->. discriminate.
Qed.

Lemma end_marker_facts :
  one_line GUI_RESULT_END /\ one_line GUI_RESULT_CANCELLED
  /\ ends_solid GUI_RESULT_END.
Proof.
  repeat split; try reflexivity. exists "D"%char. split; reflexivity.
Qed.

Lemma solid_truthy (s : string) : solid s = true -> Py.truthy s = true.
Proof. intros H. destruct (solid_first s H) as (a & r & -> & _). reflexivity. Qed.

Lemma strip_solid (s : string) : solid s = true -> Py.strip s = s.
Proof.
  intros H. unfold Py.strip.
  destruct (solid_first s H) as (a & r & E & Ha).
  rewrite E at 1. rewrite (lstrip_solid_head a r Ha), <- E.
  now apply rstrip_ends_solid, solid_ends.
Qed.

(** What the bridge sees of the helper's output once it is stripped. *)
Lemma strip_submit (content : string) :
  Py.strip (GuiHelper.submit content)
  = GUI_RESULT_START +:+ nl +:+ content +:+ nl +:+ GUI_RESULT_END.
Proof.
  unfold Py.strip, GuiHelper.submit.
  change (Py.lstrip (GUI_RESULT_START +:+ nl +:+ content +:+ nl
                       +:+ GUI_RESULT_END +:+ nl))
    with (GUI_RESULT_START +:+ nl +:+ content +:+ nl +:+ GUI_RESULT_END +:+ nl).
  replace (GUI_RESULT_START +:+ nl +:+ content +:+ nl +:+ GUI_RESULT_END +:+ nl)
    with ((GUI_RESULT_START +:+ nl +:+ content +:+ nl +:+ GUI_RESULT_END) +:+ nl)
    by (now rewrite !app_assoc_s).
  rewrite rstrip_app_blank by reflexivity.
  replace (GUI_RESULT_START +:+ nl +:+ content +:+ nl +:+ GUI_RESULT_END)
    with ((GUI_RESULT_START +:+ nl +:+ content +:+ nl) +:+ GUI_RESULT_END)
    by (now rewrite !app_assoc_s).
  apply rstrip_ends_solid, ends_solid_app, end_marker_facts.
Qed.

Lemma strip_between (content : string) :
  solid content = true -> Py.strip (nl +:+ content +:+ nl) = content.
Proof.
  intros H. unfold Py.strip.
  change (Py.lstrip (nl +:+ content +:+ nl)) with (Py.lstrip (content +:+ nl)).
  destruct (solid_first content H) as (a & r & E & Ha).
  rewrite E at 1.
  change (String a r +:+ nl) with (String a (r +:+ nl)).
  rewrite (lstrip_solid_head a _ Ha).
  change (String a (r +:+ nl)) with (String a r +:+ nl). rewrite <- E.
  rewrite rstrip_app_blank by reflexivity.
  now apply rstrip_ends_solid, solid_ends.
Qed.

(** The output of [submit] goes through the bridge unchanged. *)
Lemma protocol_round_trip (V : variant) (content stderr : string) :
  solid content = true ->
  Py.contains GUI_RESULT_END content = false ->
  Py.contains GUI_RESULT_CANCELLED content = false ->
  gui_round V (Completed 0 (GuiHelper.submit content) stderr)
  = (echo content, Choosing content).
Proof.
  intros Hsolid Hend Hcancel.
  destruct end_marker_facts as (Hle & Hlc & _).
  unfold gui_round. change (0 =? 0) with true. cbv iota zeta.
  rewrite strip_submit.
  assert (Hc : Py.contains GUI_RESULT_CANCELLED
                 (GUI_RESULT_START +:+ nl +:+ content +:+ nl +:+ GUI_RESULT_END)
               = false).
  { rewrite (contains_sep _ _ _ Hlc), (contains_sep _ _ _ Hlc), Hcancel.
    reflexivity. }
  assert (Hs : Py.contains GUI_RESULT_START
                 (GUI_RESULT_START +:+ nl +:+ content +:+ nl +:+ GUI_RESULT_END)
               = true) by apply contains_startswith, startswith_app.
  assert (He : Py.contains GUI_RESULT_END
                 (GUI_RESULT_START +:+ nl +:+ content +:+ nl +:+ GUI_RESULT_END)
               = true).
  { rewrite (contains_sep _ _ _ Hle), (contains_sep _ _ _ Hle), Hend.
    reflexivity. }
  rewrite Hc, Hs, He. cbv iota. cbn [andb].
  assert (Hfs : Py.find GUI_RESULT_START
                  (GUI_RESULT_START +:+ nl +:+ content +:+ nl +:+ GUI_RESULT_END)
                = 0) by apply find_head, startswith_app.
  assert (Hfe : Py.find GUI_RESULT_END
                  (GUI_RESULT_START +:+ nl +:+ content +:+ nl +:+ GUI_RESULT_END)
                = Py.len GUI_RESULT_START + Py.len (nl +:+ content +:+ nl)).
  { assert (Hin : Py.find GUI_RESULT_END (content +:+ nl +:+ GUI_RESULT_END)
                  = Py.len content + 1 + 0).
    { now rewrite (find_sep _ _ _ Hle Hend). }
    rewrite (find_sep _ _ _ Hle); [| reflexivity | rewrite Hin; pose proof (len_nonneg content); lia].
    rewrite Hin, !len_app. change (Py.len nl) with 1. lia. }
  rewrite Hfs, Hfe. rewrite Z.add_0_l.
  replace (GUI_RESULT_START +:+ nl +:+ content +:+ nl +:+ GUI_RESULT_END)
    with (GUI_RESULT_START +:+ (nl +:+ content +:+ nl) +:+ GUI_RESULT_END)
    by (now rewrite !app_assoc_s).
  rewrite slice_mid, (strip_between _ Hsolid), (solid_truthy _ Hsolid).
  reflexivity.
Qed.

Lemma lstrip_app_nl (s : string) :
  Py.lstrip (s +:+ nl) = Py.lstrip s +:+ nl
  \/ (Py.lstrip s = "" /\ Py.lstrip (s +:+ nl) = "").
Proof.
  induction s as [|c s IH]; [now right|].
  change (String c s +:+ nl) with (String c (s +:+ nl)).
  cbn [Py.lstrip]. destruct (Py.isspace c); [exact IH | now left].
Qed.

(** The widget's final newline makes no difference once the text is
    stripped. *)
Lemma strip_app_nl (s : string) : Py.strip (s +:+ nl) = Py.strip s.
Proof.
  unfold Py.strip. destruct (lstrip_app_nl s) as [-> | [-> ->]].
  - now apply rstrip_app_blank.
  - reflexivity.
Qed.

Lemma rstrip_final (r : string) : forall a : ascii,
  Py.isspace a = false ->
  exists b, Re.final (Some a) (Py.rstrip r) = Some b /\ Py.isspace b = false.
Proof.
  induction r as [|c r IH]; intros a Ha; [now exists a|].
  cbn [Py.rstrip]. destruct (Py.rstrip r) as [|d r2] eqn:E.
  - destruct (Py.isspace c) eqn:Ec; [now exists a | now exists c].
  - destruct (IH a Ha) as (b & Hb & Hs). exists b. split; [|exact Hs].
    exact Hb.
Qed.

(** A stripped string that is not empty neither starts nor ends with
    white space. *)
Lemma strip_truthy_solid (s : string) :
  Py.truthy (Py.strip s) = true -> solid (Py.strip s) = true.
Proof.
  unfold Py.strip. pose proof (lstrip_first s) as H.
  destruct (Py.lstrip s) as [|a r]; [discriminate|]. intros _.
  rewrite (rstrip_solid_head a r H).
  destruct (rstrip_final r a H) as (b & Hb & Hs).
  unfold solid. cbn [Re.first Re.final]. now rewrite Hb, H, Hs.
Qed.

Lemma submit_content (ttk_available : bool) (t : StandaloneGUI.text_area) :
  StandaloneGUI.submit ttk_available t
  = if negb (Py.truthy (Py.strip (StandaloneGUI.get_all t))) then None
    else Some (GuiHelper.submit (Py.strip (StandaloneGUI.get_all t))).
Proof.
  unfold StandaloneGUI.submit. destruct ttk_available; [reflexivity|].
  now rewrite strip_app_nl.
Qed.




Lemma occurs_lstrip (s : string) : occurs (Py.lstrip s) s.
Proof.
  induction s as [|c s IH]; [apply occurs_refl|].
  cbn [Py.lstrip]. destruct (Py.isspace c); [|apply occurs_refl].
  change (String c s) with (String c "" +:+ s). now apply occurs_app_r.
Qed.

Lemma rstrip_prefix (s : string) : exists q, s = Py.rstrip s +:+ q.
Proof.
  induction s as [|c s (q & IH)]; [now exists ""|].
  cbn [Py.rstrip]. destruct (Py.rstrip s) as [|d r] eqn:E.
  - destruct (Py.isspace c).
    + now exists (String c s).
    + exists s. reflexivity.
  - exists q. rewrite IH at 1. reflexivity.
Qed.

Lemma occurs_rstrip (s : string) : occurs (Py.rstrip s) s.
Proof.
  destruct (rstrip_prefix s) as (q & E). exists "", q. exact E.
Qed.

Lemma occurs_strip (s : string) : occurs (Py.strip s) s.
Proof.
  unfold Py.strip.
  apply (occurs_trans _ (Py.lstrip s)); [apply occurs_rstrip | apply occurs_lstrip].
Qed.

Lemma substring_prefix_of (m : nat) : forall s : string,
  exists q, s = String.substring 0 m s +:+ q.
Proof.
  induction m as [|m IH]; intros s.
  - exists s. now destruct s.
  - destruct s as [|c s]; [now exists ""|].
    destruct (IH s) as (q & E). exists q. simpl. now rewrite <- E.
Qed.

Lemma substring_occurs (n m : nat) : forall s : string,
  occurs (String.substring n m s) s.
Proof.
  induction n as [|n IH]; intros s.
  - destruct (substring_prefix_of m s) as (q & E). exists "", q. exact E.
  - destruct s as [|c s]; [apply occurs_refl|].
    change (String.substring (S n) m (String c s)) with (String.substring n m s).
    change (String c s) with (String c "" +:+ s). apply occurs_app_r, IH.
Qed.

Lemma slice_occurs (s : string) (a b : Z) : occurs (Py.slice s a b) s.
Proof. unfold Py.slice. apply substring_occurs. Qed.

(** What the bridge takes is a piece of what the helper printed. *)
Lemma extracted_occurs (stdout : string) : occurs (extracted stdout) stdout.
Proof.
  unfold extracted. cbv zeta.
  eapply occurs_trans; [apply occurs_strip|].
  eapply occurs_trans; [apply slice_occurs | apply occurs_strip].
Qed.

Lemma contains_strip_false (sub s : string) :
  solid sub = true ->
  Py.contains sub (Py.strip s) = false -> Py.contains sub s = false.
Proof.
  intros Hs H. destruct (Py.contains sub s) eqn:E; [|reflexivity].
  now rewrite (contains_strip _ _ Hs E) in H.
Qed.

(** The two ways a turn of the editor loop can go. *)
Lemma gui_round_cases (V : variant) (r : run) :
  (exists content stdout stderr,
     r = Completed 0 stdout stderr
     /\ gui_round V r = (echo content, Choosing content)
     /\ content = extracted stdout)
  \/ (exists line, gui_round V r = ([Print line], Prompting)).
Proof.
  unfold gui_round. destruct r as [rc out err | msg | msg].
  - destruct (Z.eqb_spec rc 0) as [-> | Hrc]; [|right; eauto].
    destruct (Py.contains GUI_RESULT_CANCELLED (Py.strip out)); [right; eauto|].
    destruct (Py.contains GUI_RESULT_START (Py.strip out)
              && Py.contains GUI_RESULT_END (Py.strip out)); [|right; eauto].
    cbv zeta. fold (extracted out).
    destruct (Py.truthy (extracted out)); [|right; eauto].
    left. now exists (extracted out), out, err.
  - destruct (timed V); right; eauto.
  - right; eauto.
Qed.


Lemma substring_none (n : nat) : forall s : string, String.substring n 0 s = "".
Proof.
  induction n as [|n IH]; intros s; destruct s as [|c s]; try reflexivity.
  simpl. apply IH.
Qed.

(** A slice whose end is not after its start is empty. *)
Lemma slice_backwards (s : string) (a b : Z) :
  0 <= b -> b <= a -> Py.slice s a b = "".
Proof.
  intros Hb Hba. unfold Py.slice. cbv zeta.
  replace (Z.to_nat (Py.clamp (Py.len s) b - Py.clamp (Py.len s) a)) with 0%nat.
  - apply substring_none.
  - pose proof (len_nonneg s). unfold Py.clamp.
    destruct (Z.ltb_spec a 0); destruct (Z.ltb_spec b 0); lia.
Qed.

Lemma find_nonneg (sub s : string) :
  Py.contains sub s = true -> 0 <= Py.find sub s.
Proof.
  induction s as [|c s IH]; cbn [Py.contains Py.find]; intros H.
  - rewrite orb_false_r in H. now rewrite H.
  - destruct (Py.startswith sub (String c s)); [lia|].
    specialize (IH H). cbv zeta.
    destruct (Z.ltb_spec (Py.find sub s) 0); lia.
Qed.

(** X14.  Markers in the wrong order deliver nothing: when the helper
    ended with code 0 and printed no cancel marker and both block markers,
    but the first end marker does not come after the end of the first start
    marker, the bridge prints the warning about missing content and goes
    back to the prompt. *)
Theorem markers_out_of_order_rejected (V : variant) (stdout stderr : string)
    (Hnocancel : Py.contains GUI_RESULT_CANCELLED (Py.strip stdout) = false)
    (Hstart : Py.contains GUI_RESULT_START (Py.strip stdout) = true)
    (Hend : Py.contains GUI_RESULT_END (Py.strip stdout) = true)
    (Horder : Py.find GUI_RESULT_END (Py.strip stdout)
              <= Py.find GUI_RESULT_START (Py.strip stdout)
                 + Py.len GUI_RESULT_START) :
  gui_round V (Completed 0 stdout stderr)
  = ([Print (warn V +:+ "No content received from GUI")], Prompting).
Proof.
  unfold gui_round. change (0 =? 0) with true. cbv iota zeta.
  rewrite Hnocancel, Hstart, Hend. cbn [andb].
  rewrite slice_backwards; [reflexivity | now apply find_nonneg | exact Horder].
Qed.

Lemma markers_out_of_order_rejected_witness :
  gui_round (NewFlowScript.script "flow.py")
    (Completed 0 ("GUI_RESULT_END" +:+ nl +:+ "text" +:+ nl +:+ "GUI_RESULT_START") "")
  = ([Print ("⚠️ " +:+ "No content received from GUI")], Prompting).
Proof.
  apply (markers_out_of_order_rejected (NewFlowScript.script "flow.py")
           ("GUI_RESULT_END" +:+ nl +:+ "text" +:+ nl +:+ "GUI_RESULT_START") "");
    try reflexivity.
  vm_compute. discriminate.
Defined.

(* ===================================================================== *)
(** * The formatting buttons of the editor window                         *)
(* ===================================================================== *)

Lemma after_last_newline_step (c : ascii) (s : string) :
  StandaloneGUI.after_last_newline (String c s)
  = if Py.contains nl (String c s) then StandaloneGUI.after_last_newline s
    else String c s.
Proof. reflexivity. Qed.

Lemma contains_app_r (sub a b : string) :
  Py.contains sub b = true -> Py.contains sub (a +:+ b) = true.
Proof.
  intros H. apply contains_occurs. apply occurs_app_r. now apply contains_occurs.
Qed.

Lemma contains_app_l (sub a b : string) :
  Py.contains sub a = true -> Py.contains sub (a +:+ b) = true.
Proof.
  intros H. apply contains_occurs. apply occurs_app_l. now apply contains_occurs.
Qed.

(** Right after a newline the line is empty. *)
Lemma after_last_newline_nl (x : string) :
  StandaloneGUI.after_last_newline (x +:+ nl) = "".
Proof.
  induction x as [|c x IH]; [reflexivity|].
  change (String c x +:+ nl) with (String c (x +:+ nl)).
  rewrite after_last_newline_step.
  change (String c (x +:+ nl)) with (String c x +:+ nl).
  rewrite contains_app_r; [exact IH | reflexivity].
Qed.

Lemma contains_nl_app (a m : string) :
  Py.contains nl (a +:+ m) = Py.contains nl a || Py.contains nl m.
Proof.
  induction a as [|d a IH]; [reflexivity|].
  change (Py.contains nl (String d a +:+ m))
    with ((if Ascii.eqb "010"%char d then true else false)
          || Py.contains nl (a +:+ m)).
  change (Py.contains nl (String d a))
    with ((if Ascii.eqb "010"%char d then true else false) || Py.contains nl a).
  now rewrite IH, orb_assoc.
Qed.

(** Text with no newline put after [x] lengthens the last line of [x]. *)
Lemma after_last_newline_app (x m : string) :
  one_line m ->
  StandaloneGUI.after_last_newline (x +:+ m)
  = StandaloneGUI.after_last_newline x +:+ m.
Proof.
  intros Hm. unfold one_line in Hm. induction x as [|c x IH].
  - destruct m as [|c m]; [reflexivity|].
    change ("" +:+ String c m) with (String c m).
    rewrite after_last_newline_step. now rewrite Hm.
  - change (String c x +:+ m) with (String c (x +:+ m)).
    rewrite !after_last_newline_step.
    change (String c (x +:+ m)) with (String c x +:+ m).
    rewrite contains_nl_app, Hm, orb_false_r.
    now destruct (Py.contains nl (String c x)).
Qed.

(** One formatting button, whatever its marker. *)
Lemma puts_on_line_if (marker : string) (t : StandaloneGUI.text_area) :
  puts_on_line marker t
    (if String.eqb (Py.strip (StandaloneGUI.line_content t)) ""
     then StandaloneGUI.insert marker t
     else StandaloneGUI.insert (nl +:+ marker) t).
Proof.
  destruct (String.eqb_spec (Py.strip (StandaloneGUI.line_content t)) "")
    as [E | E].
  - exists "". split; [now left|]. split; [reflexivity|]. split; [reflexivity|].
    split; [|tauto]. now rewrite append_nil_r.
  - exists nl. split; [now right|]. split; [reflexivity|]. split; [reflexivity|].
    split; [now rewrite after_last_newline_nl|].
    split; [discriminate | contradiction].
Qed.


Lemma strip_nonempty (k s : string) :
  solid k = true -> Py.contains k s = true -> Py.strip s <> "".
Proof.
  intros Hk H E. apply (contains_strip _ _ Hk) in H. rewrite E in H.
  destruct (solid_first k Hk) as (a & r & -> & _). discriminate.
Qed.

(** After a list button the line is not blank. *)
Lemma list_button_line (f : StandaloneGUI.text_area -> StandaloneGUI.text_area)
    (marker : string) (t : StandaloneGUI.text_area) :
  In (f, marker) list_buttons ->
  puts_on_line marker t (f t)
  /\ Py.strip (StandaloneGUI.line_content (f t)) <> "".
Proof.
  intros Hin.
  assert (H : puts_on_line marker t (f t)
              /\ one_line marker
              /\ exists k, solid k = true /\ Py.contains k marker = true).
  { destruct Hin as [[= <- <-] | [[= <- <-] | [[= <- <-] | [[= <- <-] | []]]]];
      (split; [apply puts_on_line_if|]); (split; [reflexivity|]).
    - now exists "•".
    - now exists "1.".
    - now exists "→".
    - now exists "☐". }
  destruct H as (Hp & Hm & k & Hk & Hc). split; [exact Hp|].
  destruct Hp as (pad & _ & Hb & _).
  unfold StandaloneGUI.line_content. rewrite Hb, <- app_assoc_s.
  rewrite (after_last_newline_app _ _ Hm).
  apply (strip_nonempty k _ Hk). now apply contains_app_r.
Qed.

Lemma separator_line (t : StandaloneGUI.text_area) :
  StandaloneGUI.line_content (StandaloneGUI.add_separator t) = "".
Proof.
  unfold StandaloneGUI.add_separator, StandaloneGUI.line_content. cbv zeta.
  destruct (String.eqb _ _); unfold StandaloneGUI.insert; cbn [StandaloneGUI.before].
  - rewrite <- app_assoc_s. apply after_last_newline_nl.
  - rewrite <- !app_assoc_s. apply after_last_newline_nl.
Qed.

Lemma list_button_insert (g : StandaloneGUI.text_area -> StandaloneGUI.text_area)
    (marker : string) (t : StandaloneGUI.text_area) :
  In (g, marker) list_buttons ->
  g t = if String.eqb (Py.strip (StandaloneGUI.line_content t)) ""
        then StandaloneGUI.insert marker t
        else StandaloneGUI.insert (nl +:+ marker) t.
Proof.
  intros [[= <- <-] | [[= <- <-] | [[= <- <-] | [[= <- <-] | []]]]]; reflexivity.
Qed.

(** X16.  How the buttons follow one another.  A list button pressed
    right after a list button starts a new line for its marker, so the
    items stack one per line; pressed right after the separator button it
    puts its marker at the cursor with no newline, because the separator
    leaves the cursor at the start of an empty line. *)
Theorem list_items_stack
    (f g : StandaloneGUI.text_area -> StandaloneGUI.text_area)
    (mf mg : string) (t : StandaloneGUI.text_area)
    (Hf : In (f, mf) list_buttons) (Hg : In (g, mg) list_buttons) :
  StandaloneGUI.before (g (f t)) = StandaloneGUI.before (f t) +:+ nl +:+ mg
  /\ StandaloneGUI.before (g (StandaloneGUI.add_separator t))
     = StandaloneGUI.before (StandaloneGUI.add_separator t) +:+ mg
  /\ StandaloneGUI.after (g (f t)) = StandaloneGUI.after t
  /\ StandaloneGUI.after (g (StandaloneGUI.add_separator t))
     = StandaloneGUI.after t.
Proof.
  destruct (list_button_line f mf t Hf) as ((pad & _ & _ & Ha & _) & Hline).
  rewrite !(list_button_insert g mg _ Hg), separator_line.
  destruct (String.eqb_spec (Py.strip (StandaloneGUI.line_content (f t))) "")
    as [E | _]; [contradiction|].
  change (Py.strip "") with "". cbn [String.eqb].
  repeat split; try exact Ha.
  unfold StandaloneGUI.add_separator. cbv zeta.
  now destruct (String.eqb _ _).
Qed.

Lemma list_items_stack_witness :
  StandaloneGUI.before
    (StandaloneGUI.add_number
       (StandaloneGUI.add_bullet (StandaloneGUI.mkTextArea "todo:" "")))
  = StandaloneGUI.before
      (StandaloneGUI.add_bullet (StandaloneGUI.mkTextArea "todo:" ""))
    +:+ nl +:+ "1. ".
Proof.
  refine (proj1 (list_items_stack StandaloneGUI.add_bullet StandaloneGUI.add_number
                   "• " "1. " (StandaloneGUI.mkTextArea "todo:" "") _ _)).
  - now left.
  - right. now left.
Defined.

(* ===================================================================== *)
(** * More on the session                                                 *)
(* ===================================================================== *)

Lemma how_before (o : list output) (f : finished) : how (before o f) = how f.
Proof. reflexivity. Qed.

Lemma disk_before (o : list output) (f : finished) : disk (before o f) = disk f.
Proof. reflexivity. Qed.

Lemma left_over_before (o : list output) (f : finished) :
  left_over (before o f) = left_over f.
Proof. reflexivity. Qed.

Section Terminal.

Variable V : variant.
Variable editor : nat -> string -> run.

(** The events [get_user_input] did not read are the last ones. *)
Lemma converse_suffix (stdin : list tty) : forall (m : mode) (n : nat),
  exists used, stdin = used ++ unread (converse V editor m stdin n).
Proof.
  induction stdin as [|ev rest IH]; intros m n.
  - exists []. now destruct m.
  - assert (Hrec : forall m' n',
              exists used, ev :: rest
                           = used ++ unread (converse V editor m' rest n')).
    { intros m' n'. destruct (IH m' n') as (used & E).
      exists (ev :: used). simpl. now rewrite <- E. }
    destruct m as [|content]; destruct ev as [l| |].
    + rewrite converse_line.
      destruct (negb (Py.truthy (Py.strip l))); [apply Hrec|].
      destruct (gui V && Py.mem (Py.lower (Py.strip l)) editor_words);
        [apply Hrec | now exists [Line l]].
    + now exists [Eof].
    + now exists [Interrupt].
    + rewrite converse_choice.
      destruct (String.eqb (Py.lower (Py.strip l)) "edit");
        [apply Hrec | now exists [Line l]].
    + cbn [converse]. apply Hrec.
    + now exists [Interrupt].
Qed.

(** Blank lines, then the interrupt key or the end of the input:
    [get_user_input] does what the script does when it is stopped. *)
Lemma converse_stops (stdin : list tty) : forall n : nat,
  stops_first stdin = true ->
  result (converse V editor Prompting stdin n) = on_stop V
  /\ launches (converse V editor Prompting stdin n) = n.
Proof.
  induction stdin as [|ev rest IH]; intros n H; [now split|].
  destruct ev as [l| |]; [|now split..].
  cbn [stops_first] in H. apply andb_true_iff in H as [Hl Hrest].
  rewrite converse_line, Hl. now apply IH.
Qed.

(** Where a returned instruction comes from.  The choice is offered only
    by a script that has the editor. *)
Lemma converse_origin (stdin : list tty) : forall (m : mode) (n : nat) (u : string),
  match m with Prompting => True | Choosing _ => gui V = true end ->
  result (converse V editor m stdin n) = Returned u ->
  origin V editor stdin u \/ m = Choosing u.
Proof.
  assert (Hin : forall ev rest u,
            origin V editor rest u -> origin V editor (ev :: rest) u).
  { intros ev rest u [H | [(l & Hl & E) | H]].
    - now left.
    - right. left. exists l. split; [now right | exact E].
    - right. now right. }
  induction stdin as [|ev rest IH]; intros m n u Hm H.
  - left. left. now destruct m.
  - assert (Hround : forall c n',
              gui V = true ->
              result (converse V editor (snd (gui_round V (editor n c))) rest n')
              = Returned u ->
              origin V editor (ev :: rest) u).
    { intros c n' Hgui Hr.
      destruct (gui_round_cases V (editor n c))
        as [(c' & out & err & Er & Eg & Ex) | (line & Eg)];
        rewrite Eg in Hr; cbn [snd] in Hr.
      - destruct (IH (Choosing c') _ _ Hgui Hr) as [Ho | Ec]; [now apply Hin|].
        injection Ec as ->. right. right. split; [exact Hgui|].
        now exists n, c, out, err.
      - destruct (IH Prompting _ _ I Hr) as [Ho | Ec]; [now apply Hin | discriminate]. }
    destruct m as [|content]; destruct ev as [l| |].
    + rewrite converse_line in H.
      destruct (negb (Py.truthy (Py.strip l))).
      { rewrite result_say in H. destruct (IH Prompting _ _ I H) as [Ho | Ec];
          [left; now apply Hin | discriminate]. }
      destruct (gui V) eqn:Hgui; cbn [andb] in H.
      * destruct (Py.mem (Py.lower (Py.strip l)) editor_words).
        -- left. rewrite result_say in H. now apply (Hround "" (S n)).
        -- injection H as <-. left. right. left. exists l.
           split; [now left | reflexivity].
      * injection H as <-. left. right. left. exists l.
        split; [now left | reflexivity].
    + left. now left.
    + left. now left.
    + rewrite converse_choice in H.
      destruct (String.eqb (Py.lower (Py.strip l)) "edit").
      * left. rewrite result_say in H. now apply (Hround content (S n)).
      * injection H as <-. now right.
    + cbn [converse] in H. rewrite result_say in H.
      destruct (IH Prompting _ _ I H) as [Ho | Ec]; [left; now apply Hin | discriminate].
    + left. now left.
Qed.

Lemma get_user_input_origin (stdin : list tty) (n : nat) (u : string) :
  result (get_user_input V editor stdin n) = Returned u ->
  origin V editor stdin u.
Proof.
  unfold get_user_input. rewrite result_say. intros H.
  destruct (converse_origin stdin Prompting n u I H) as [Ho | E];
    [exact Ho | discriminate].
Qed.

Lemma get_user_input_suffix (stdin : list tty) (n : nat) :
  exists used, stdin = used ++ unread (get_user_input V editor stdin n).
Proof. apply converse_suffix. Qed.

Lemma origin_later (used rest : list tty) (u : string) :
  origin V editor rest u -> origin V editor (used ++ rest) u.
Proof.
  intros [H | [(l & Hl & E) | H]].
  - now left.
  - right. left. exists l. split; [|exact E]. apply in_or_app. now right.
  - right. now right.
Qed.

(** With a script that has no editor, [get_user_input] does not depend on
    the editor and launches nothing. *)
Lemma converse_no_gui (other : nat -> string -> run) (stdin : list tty) :
  forall n : nat, gui V = false ->
  converse V editor Prompting stdin n = converse V other Prompting stdin n
  /\ launches (converse V editor Prompting stdin n) = n.
Proof.
  induction stdin as [|ev rest IH]; intros n Hgui; [now split|].
  destruct ev as [l| |]; [|now split..].
  rewrite !converse_line, Hgui. cbn [andb].
  destruct (negb (Py.truthy (Py.strip l))); [|now split].
  destruct (IH n Hgui) as [-> Hl]. now split.
Qed.

Variables log_file stamp : string.
Hypothesis classify_keeps : forall u, snd (classify V u) = u.

(** What the loop of [main] has logged and answered when it is done. *)
Lemma main_loop_origin (fuel : nat) : forall (stdin : list tty) (n : nat) (d : fs),
  let r := main_loop V fuel log_file stamp editor stdin n d in
  (exists used, stdin = used ++ left_over r)
  /\ (forall code, how r = SysExit code -> on_stop V = Exited code)
  /\ (how r = Done ->
      exists u : string,
        origin V editor stdin u
        /\ fst (classify V u) <> Help
        /\ disk r = snd (save V log_file stamp (fst (classify V u)) u d)
        /\ exists pre, printed r
                       = pre ++ response_block (respond V (fst (classify V u)) u)).
Proof.
  induction fuel as [|fuel IH]; intros stdin n d.
  - cbn. split; [now exists []|]. split; [discriminate | discriminate].
  - cbn [main_loop]. cbv zeta.
    destruct (get_user_input_suffix stdin n) as (used & Eused).
    pose proof (get_user_input_origin stdin n) as Horigin.
    destruct (result (get_user_input V editor stdin n)) as [u|code] eqn:Er.
    + specialize (Horigin u eq_refl).
      pose proof (classify_keeps u) as Hk.
      destruct (classify V u) as [a processed] eqn:Ec. cbn [snd] in Hk. subst processed.
      assert (Hstep : a <> Help ->
        let r := (let '(logged, d') := save V log_file stamp a u d in
                  mkFinished (shown (get_user_input V editor stdin n) ++ logged
                                ++ response_block (respond V a u))
                             d' Done (unread (get_user_input V editor stdin n))) in
        (exists used, stdin = used ++ left_over r)
        /\ (forall code, how r = SysExit code -> on_stop V = Exited code)
        /\ (how r = Done ->
            exists u0 : string,
              origin V editor stdin u0
              /\ fst (classify V u0) <> Help
              /\ disk r = snd (save V log_file stamp (fst (classify V u0)) u0 d)
              /\ exists pre, printed r
                   = pre ++ response_block (respond V (fst (classify V u0)) u0))).
      { intros Ha. destruct (save V log_file stamp a u d) as [logged d'] eqn:Es.
        cbn. split; [now exists used|]. split; [discriminate|]. intros _.
        exists u. rewrite Ec. cbn [fst]. rewrite Es. cbn [snd].
        repeat split; try assumption.
        exists (shown (get_user_input V editor stdin n) ++ logged).
        now rewrite app_assoc. }
      destruct a; [apply Hstep; discriminate | | apply Hstep; discriminate].
      destruct (IH (unread (get_user_input V editor stdin n))
                   (launches (get_user_input V editor stdin n)) d)
        as ((used' & Eu) & Hexit & Hdone).
      rewrite how_before, disk_before, left_over_before.
      split; [|split].
      * exists (used ++ used'). rewrite <- app_assoc, <- Eu. exact Eused.
      * exact Hexit.
      * intros Hd. destruct (Hdone Hd) as (u0 & Ho & Hh & Hdisk & pre & Hp).
        exists u0. split; [|split; [exact Hh | split; [exact Hdisk|]]].
        -- rewrite Eused. now apply origin_later.
        -- exists ((shown (get_user_input V editor stdin n) ++ show_help V) ++ pre).
           unfold before. cbn [printed]. rewrite Hp. now rewrite app_assoc.
    + cbn. split; [now exists used|]. split; [|discriminate].
      intros c [= <-]. unfold get_user_input in Er. rewrite result_say in Er.
      now apply converse_exit in Er.
Qed.

Lemma main_origin (hms : string) (stdin : list tty) (d : fs) :
  let r := main V log_file hms stamp editor stdin d in
  (exists used, stdin = used ++ left_over r)
  /\ (forall code, how r = SysExit code -> on_stop V = Exited code)
  /\ logged_from_input V log_file hms stamp editor stdin d.
Proof.
  unfold logged_from_input, main. cbv zeta.
  rewrite how_before, disk_before, left_over_before.
  destruct (main_loop_origin (S (length stdin)) stdin 0%nat d)
    as (Hs & He & Hd).
  split; [exact Hs|]. split; [exact He|].
  intros H. destruct (Hd H) as (u & Ho & Hh & Hdisk & pre & Hp).
  exists u. repeat split; try assumption.
  exists (print_banner V hms ++ pre). unfold before. cbn [printed].
  rewrite Hp. now rewrite app_assoc.
Qed.

(** The first turn of the loop reads at least one event, if there is
    one. *)
Lemma main_loop_consumes (fuel : nat) (stdin : list tty) (n : nat) (d : fs) :
  (length (left_over (main_loop V (S fuel) log_file stamp editor stdin n d))
   <= pred (length stdin))%nat.
Proof.
  cbn [main_loop].
  pose proof (converse_consumes V editor stdin Prompting n) as Hc.
  change (unread (converse V editor Prompting stdin n))
    with (unread (get_user_input V editor stdin n)) in Hc.
  destruct (result (get_user_input V editor stdin n)) as [u|code]; [|exact Hc].
  destruct (classify V u) as [a p].
  assert (Hstep : a <> Help ->
    (length (left_over
       (let '(logged, d') := save V log_file stamp a p d in
        mkFinished (shown (get_user_input V editor stdin n) ++ logged
                      ++ response_block (respond V a p))
                   d' Done (unread (get_user_input V editor stdin n))))
     <= pred (length stdin))%nat).
  { intros _. now destruct (save V log_file stamp a p d). }
  destruct a; [apply Hstep; discriminate | | apply Hstep; discriminate].
  rewrite left_over_before.
  destruct (main_loop_origin fuel (unread (get_user_input V editor stdin n))
              (launches (get_user_input V editor stdin n)) d)
    as ((used & E) & _).
  apply (f_equal (@length tty)) in E. rewrite length_app in E. lia.
Qed.

(** With a script that has no editor, the loop does not depend on the
    editor. *)
Lemma main_loop_no_gui (other : nat -> string -> run) (fuel : nat) :
  gui V = false ->
  forall (stdin : list tty) (n : nat) (d : fs),
  main_loop V fuel log_file stamp editor stdin n d
  = main_loop V fuel log_file stamp other stdin n d.
Proof.
  intros Hgui. induction fuel as [|fuel IH]; intros stdin n d; [reflexivity|].
  cbn [main_loop].
  assert (E : get_user_input V editor stdin n = get_user_input V other stdin n).
  { unfold get_user_input.
    now rewrite (proj1 (converse_no_gui other stdin n Hgui)). }
  rewrite E. destruct (result (get_user_input V other stdin n)); [|reflexivity].
  destruct (classify V s) as [a p]. destruct a; try reflexivity.
  now rewrite IH.
Qed.

(** A run that is stopped before any instruction: what [main] does with
    the outcome of the handler. *)
Lemma main_stopped (hms : string) (stdin : list tty) (d : fs) :
  stops_first stdin = true ->
  let r := main V log_file hms stamp editor stdin d in
  match on_stop V with
  | Exited code => how r = SysExit code /\ disk r = d
  | Returned t =>
      fst (classify V t) <> Help ->
      how r = Done
      /\ disk r = snd (save V log_file stamp (fst (classify V t)) t d)
      /\ exists pre,
           printed r = pre ++ fst (save V log_file stamp (fst (classify V t)) t d)
                           ++ response_block (respond V (fst (classify V t)) t)
  end.
Proof.
  intros Hstop. cbv zeta. unfold main.
  rewrite how_before, disk_before. cbn [main_loop].
  assert (Hr : result (get_user_input V editor stdin 0%nat) = on_stop V).
  { unfold get_user_input. rewrite result_say. now apply converse_stops. }
  rewrite Hr. destruct (on_stop V) as [t | code]; [|now split].
  pose proof (classify_keeps t) as Hk.
  destruct (classify V t) as [a p]. cbn [fst snd] in *. subst p. intros Ha.
  destruct a; try contradiction;
    destruct (save V log_file stamp _ t d) as [logged d'];
    (split; [reflexivity|]); (split; [reflexivity|]);
    exists (print_banner V hms ++ shown (get_user_input V editor stdin 0%nat));
    unfold before; cbn [printed fst]; now rewrite <- app_assoc.
Qed.

End Terminal.

(** The three classifiers satisfy what the lemmas above ask of them. *)
Lemma scripts_keep_input (path : string) :
  (forall u, snd (classify FlowScript.script u) = u)
  /\ (forall u, snd (classify OldFlowScript.script u) = u)
  /\ (forall u, snd (classify (NewFlowScript.script path) u) = u).
Proof. repeat split; intros u; apply (process_input_unchanged u). Qed.


(** X18.  The terminal input is read in order and no further than
    needed: in each script the events left unread when [main] stops are the
    last ones of the input, and unless the input is empty at least one
    event was read. *)
Theorem input_read_in_order (path log_file hms stamp : string)
    (editor : nat -> string -> run) (stdin : list tty) (d : fs) :
  let in_order := fun r : finished =>
    exists used, stdin = used ++ left_over r /\ (stdin <> [] -> used <> []) in
  in_order (main FlowScript.script log_file hms stamp editor stdin d)
  /\ in_order (main OldFlowScript.script log_file hms stamp editor stdin d)
  /\ in_order (main (NewFlowScript.script path) log_file hms stamp editor stdin d).
Proof.
  assert (H : forall V, (forall u, snd (classify V u) = u) ->
            exists used,
              stdin = used ++ left_over (main V log_file hms stamp editor stdin d)
              /\ (stdin <> [] -> used <> [])).
  { intros V HV.
    destruct (main_origin V editor log_file stamp HV hms stdin d)
      as ((used & E) & _).
    exists used. split; [exact E|]. intros Hne ->.
    pose proof (main_loop_consumes V editor log_file stamp HV
                  (length stdin) stdin 0%nat d) as Hc.
    unfold main in E. rewrite left_over_before in E. cbn [app] in E.
    rewrite <- E in Hc.
    destruct stdin; [congruence | cbn [length pred] in Hc; lia]. }
  destruct (scripts_keep_input path) as (Hf & Ho & Hn).
  cbv zeta. repeat split; now apply H.
Qed.



(** X20.  [flow.py] has no editor: a run of it does not depend on what
    the editor would do, and the words that open the editor in the other
    two scripts are instructions like any other, returned as they were
    typed. *)
Theorem flow_has_no_editor (log_file hms stamp : string)
    (editor other : nat -> string -> run) (stdin : list tty) (d : fs) :
  main FlowScript.script log_file hms stamp editor stdin d
  = main FlowScript.script log_file hms stamp other stdin d
  /\ forall (word : string) (rest : list tty) (n : nat),
       Py.mem (Py.lower (Py.strip word)) editor_words = true ->
       get_user_input FlowScript.script editor (Line word :: rest) n
       = mkReply (map Print (menu FlowScript.script)
                    ++ [Ask (prompt FlowScript.script)])
                 (Returned (Py.strip word)) rest n.
Proof.
  split.
  - unfold main. f_equal. now apply main_loop_no_gui.
  - intros word rest n Hword. unfold get_user_input.
    rewrite converse_line, (editor_word_truthy _ Hword). reflexivity.
Qed.

(** The two scripts whose handlers return [finish]. *)
Lemma plain_scripts_one_response (log_file hms stamp : string)
    (editor : nat -> string -> run) (stdin : list tty) (d : fs) :
  one_response FlowScript.script log_file hms stamp editor stdin d
  /\ one_response OldFlowScript.script log_file hms stamp editor stdin d.
Proof.
  split; apply main_one_response; simpl;
    try (intros t [= <-]; (discriminate || reflexivity));
    try discriminate;
    try (split; reflexivity);
    try reflexivity;
    intros; apply plain_save_tidy.
Qed.


(** X22.  [new_flow/flow.py] never logs a finish: a run of it that ends
    after a response has logged the action [continue], and its response is
    the one that asks for the script to be run again, which names the
    script by its path. *)
Theorem continuous_logs_continue (path log_file hms stamp : string)
    (editor : nat -> string -> run) (stdin : list tty) (d : fs)
    (Hdone : how (main (NewFlowScript.script path) log_file hms stamp
                    editor stdin d) = Done) :
  let r := main (NewFlowScript.script path) log_file hms stamp editor stdin d in
  exists u : string,
    disk r = snd (save_session_log_backup log_file stamp Continue u d)
    /\ (exists pre,
          printed r
          = pre ++ response_block (generate_response_continuous path Continue u))
    /\ occurs (nl +:+ "python " +:+ path +:+ nl)
              (generate_response_continuous path Continue u).
Proof.
  destruct (scripts_keep_input path) as (_ & _ & Hn).
  destruct (main_origin (NewFlowScript.script path) editor log_file stamp Hn
              hms stdin d) as (_ & _ & H).
  destruct (H Hdone) as (u & _ & Hh & Hdisk & pre & Hp).
  cbn [classify respond save NewFlowScript.script] in *.
  assert (Ha : fst (NewFlow.process_input u) = Continue).
  { pose proof (new_flow_never_finish u).
    destruct (fst (NewFlow.process_input u)); congruence. }
  rewrite Ha in Hdisk, Hp. exists u. split; [exact Hdisk|].
  split; [now exists pre|].
  unfold generate_response_continuous.
  rewrite <- (app_assoc_s "python ").
  apply later_line_in_unlines. simpl. tauto.
Qed.

Lemma continuous_run_done :
  how (main (NewFlowScript.script "flow.py") "session_log.json" "10:00:00" "T"
         (fun _ _ => LaunchError "") [Line "finish"] (mkFs ∅ ∅ ∅)) = Done.
Proof. vm_compute. reflexivity. Qed.

Lemma continuous_logs_continue_witness :
  exists u : string,
    disk (main (NewFlowScript.script "flow.py") "session_log.json" "10:00:00" "T"
            (fun _ _ => LaunchError "") [Line "finish"] (mkFs ∅ ∅ ∅))
    = snd (save_session_log_backup "session_log.json" "T" Continue u (mkFs ∅ ∅ ∅)).
Proof.
  destruct (continuous_logs_continue "flow.py" "session_log.json" "10:00:00" "T"
              (fun _ _ => LaunchError "") [Line "finish"] (mkFs ∅ ∅ ∅)
              continuous_run_done)
    as (u & H & _).
  now exists u.
Defined.



Section FirstLine.

Variable V : variant.
Variable editor : nat -> string -> run.
Variables log_file hms stamp : string.

(** A run whose first line is an instruction. *)
Lemma main_first_line (l : string) (rest : list tty) (d : fs) :
  Py.truthy (Py.strip l) = true ->
  gui V && Py.mem (Py.lower (Py.strip l)) editor_words = false ->
  fst (classify V (Py.strip l)) <> Help ->
  snd (classify V (Py.strip l)) = Py.strip l ->
  main V log_file hms stamp editor (Line l :: rest) d
  = mkFinished
      (print_banner V hms ++ map Print (menu V) ++ [Ask (prompt V)]
         ++ fst (save V log_file stamp (fst (classify V (Py.strip l))) (Py.strip l) d)
         ++ response_block (respond V (fst (classify V (Py.strip l))) (Py.strip l)))
      (snd (save V log_file stamp (fst (classify V (Py.strip l))) (Py.strip l) d))
      Done rest.
Proof.
  intros Ht Hp Hh Hk. unfold main. cbn [main_loop]. unfold get_user_input.
  rewrite converse_line, Ht, Hp. cbn [negb say result shown unread launches].
  destruct (classify V (Py.strip l)) as [a p]. cbn [fst snd] in *. subst p.
  destruct a; try contradiction;
    destruct (save V log_file stamp _ (Py.strip l) d) as [logged d'];
    unfold before; cbn [printed disk how left_over fst snd];
    now rewrite <- !app_assoc.
Qed.

End FirstLine.


